(** * tier-mem: VM memory-tiering report

  A shallow embedding of [tier-mem.py].  The script opens one SSH
  session to an ESXi host, builds a map from cartel id to VM name out
  of [esxcli vm process list], rewrites the [vm.<id>] tokens of the
  [memstats] output with the VM names, keeps the lines that look like
  data rows and prints them as an aligned table.

  Text is [list ascii]: a Python [str] whose code points are below
  256.  On that range [str.isspace] (used by [strip], [split()] and
  the pattern class [\s]) holds of 9-13, 28-32, 133 and 160, and the
  pattern class [\d] holds of the digits 0-9 only.

  A [dict] is an association list with unique keys kept in insertion
  order, which is the order [dict.items()] iterates in. *)

From Stdlib Require Import Ascii String List Bool Arith Lia.
Import ListNotations.

Set Implicit Arguments.

(** ** Python string primitives *)

Definition text := list ascii.

Definition str (s : string) : text := list_ascii_of_string s.

Module PyStr.

(** [str.isspace] on one character. *)
Definition isspace (c : ascii) : bool :=
  let n := nat_of_ascii c in
  ((9 <=? n) && (n <=? 13)) || ((28 <=? n) && (n <=? 32))
  || (n =? 133) || (n =? 160).

(** Decimal digits, the class [\d]. *)
Definition isdigit (c : ascii) : bool :=
  let n := nat_of_ascii c in (48 <=? n) && (n <=? 57).

Definition eqb (a b : text) : bool :=
  if list_eq_dec ascii_dec a b then true else false.

Fixpoint lstrip (s : text) : text :=
  match s with
  | [] => []
  | c :: s' => if isspace c then lstrip s' else s
  end.

Definition rstrip (s : text) : text := rev (lstrip (rev s)).

(** [s.strip()] *)
Definition strip (s : text) : text := rstrip (lstrip s).

(** [s.split(sep)] for a one-character separator: empty fields are
    kept and the result is never empty. *)
Fixpoint split_sep (sep : ascii) (s : text) : list text :=
  match s with
  | [] => [[]]
  | c :: s' =>
      if Ascii.eqb c sep then [] :: split_sep sep s'
      else match split_sep sep s' with
           | field :: fields => (c :: field) :: fields
           | [] => [[c]]
           end
  end.

Definition flush (tok : text) : list text :=
  match tok with [] => [] | _ => [tok] end.

(** The scanning loop of [s.split()]: [tok] is the token read so far. *)
Fixpoint split_scan (tok : text) (s : text) : list text :=
  match s with
  | [] => flush tok
  | c :: s' =>
      if isspace c then flush tok ++ split_scan [] s'
      else split_scan (tok ++ [c]) s'
  end.

(** [s.split()]: maximal runs of non-whitespace characters. *)
Definition split (s : text) : list text := split_scan [] s.

(** [s.startswith(p)] *)
Fixpoint startswith (p s : text) : bool :=
  match p, s with
  | [], _ => true
  | _ :: _, [] => false
  | a :: p', b :: s' => Ascii.eqb a b && startswith p' s'
  end.

(** [sub in s] *)
Fixpoint contains (sub s : text) : bool :=
  startswith sub s ||
  match s with
  | [] => false
  | _ :: s' => contains sub s'
  end.

(** The left-to-right scan of [s.replace(old, new)] for a non-empty
    [old]; [skip] counts the characters of a match still to be passed
    over, so matches never overlap. *)
Fixpoint replace_scan (old new : text) (skip : nat) (s : text) : text :=
  match s with
  | [] => []
  | c :: s' =>
      match skip with
      | S k => replace_scan old new k s'
      | O =>
          if startswith old s
          then new ++ replace_scan old new (length old - 1) s'
          else c :: replace_scan old new 0 s'
      end
  end.

(** [s.replace(old, new)].  An empty [old] matches before every
    character and at the end. *)
Definition replace (old new s : text) : text :=
  match old with
  | [] => flat_map (fun c => new ++ [c]) s ++ new
  | _ :: _ => replace_scan old new 0 s
  end.

(** [format(s, "<n")]: pad on the right with blanks, never truncate. *)
Definition ljust (n : nat) (s : text) : text :=
  s ++ repeat " "%char (n - length s).

End PyStr.

(** ** Regular expressions

    The fragment of [re] that [data_pattern] needs: character classes,
    sequence and repetition.  [accepts] decides a match of the whole text
    by derivatives; alternation and the two constants only arise as
    derivatives. *)

Inductive charclass := Space | NonSpace | Digit.

Definition in_class (k : charclass) (c : ascii) : bool :=
match k with
| Space => PyStr.isspace c
| NonSpace => negb (PyStr.isspace c)
| Digit => PyStr.isdigit c
end.

Inductive regex :=
| Void
| Eps
| Cls (k : charclass)
| Seq (r1 r2 : regex)
| Alt (r1 r2 : regex)
| Star (r : regex).

(** [r+] *)
Definition plus (r : regex) : regex := Seq r (Star r).

Fixpoint nullable (r : regex) : bool :=
match r with
| Void => false
| Eps => true
| Cls _ => false
| Seq r1 r2 => nullable r1 && nullable r2
| Alt r1 r2 => nullable r1 || nullable r2
| Star _ => true
end.

Fixpoint deriv (c : ascii) (r : regex) : regex :=
match r with
| Void => Void
| Eps => Void
| Cls k => if in_class k c then Eps else Void
| Seq r1 r2 =>
    Alt (Seq (deriv c r1) r2) (if nullable r1 then deriv c r2 else Void)
| Alt r1 r2 => Alt (deriv c r1) (deriv c r2)
| Star r1 => Seq (deriv c r1) (Star r1)
end.

Fixpoint accepts (r : regex) (s : text) : bool :=
match s with
| [] => nullable r
| c :: s' => accepts (deriv c r) s'
end.

Definition newline : ascii := "010"%char.

(** [re.compile("^" r "$").match(s)]: [r] matches all of [s], or all of
    [s] but a final newline. *)
Definition re_match (r : regex) (s : text) : bool :=
accepts r s ||
match rev s with
| c :: p => Ascii.eqb c newline && accepts r (rev p)
| [] => false
end.

(** The language of a regular expression. *)
Inductive Matches : regex -> text -> Prop :=
| MEps : Matches Eps []
| MCls k c : in_class k c = true -> Matches (Cls k) [c]
| MSeq r1 r2 s1 s2 :
    Matches r1 s1 -> Matches r2 s2 -> Matches (Seq r1 r2) (s1 ++ s2)
| MAltL r1 r2 s : Matches r1 s -> Matches (Alt r1 r2) s
| MAltR r1 r2 s : Matches r2 s -> Matches (Alt r1 r2) s
| MStar0 r : Matches (Star r) []
| MStarS r s1 s2 :
    Matches r s1 -> Matches (Star r) s2 -> Matches (Star r) (s1 ++ s2).

(** ** Dictionaries *)

Definition dict := list (text * text).

(** [d[k] = v]: an existing key keeps its place, a new key goes last. *)
Fixpoint dict_set (d : dict) (k v : text) : dict :=
match d with
| [] => [(k, v)]
| (k', v') :: d' =>
    if PyStr.eqb k' k then (k', v) :: d' else (k', v') :: dict_set d' k v
end.

(** [d.get(k)] *)
Fixpoint dict_get (d : dict) (k : text) : option text :=
match d with
| [] => None
| (k', v') :: d' => if PyStr.eqb k' k then Some v' else dict_get d' k
end.

Definition items (d : dict) : list (text * text) := d.

Definition values (d : dict) : list text := map snd d.

Definition keys (d : dict) : list text := map fst d.

(** ** Runs: printed output, remote commands and exceptions *)

Inductive event :=
| Print (line : text)
| Exec (command : text)
| Close.

Inductive exn :=
| FileNotFoundError
| ParseError
| AttributeError
| SSHException (msg : text)
| ValueError
| IndexError.

Inductive outcome (A : Type) :=
| Returned (a : A)
| Raised (e : exn).

Arguments Raised {A} e.

(** A computation: what it did, and how it ended. *)
Definition run (A : Type) : Type := list event * outcome A.

Definition ret {A} (a : A) : run A := ([], Returned a).

Definition raise {A} (e : exn) : run A := ([], Raised e).

Definition bind {A B} (m : run A) (f : A -> run B) : run B :=
match m with
| (t1, Returned a) => let (t2, r) := f a in (t1 ++ t2, r)
| (t1, Raised e) => (t1, Raised e)
end.

Notation "x <- m ;; k" := (bind m (fun x => k))
  (at level 61, m at next level, right associativity).
Notation "m ;;; k" := (bind m (fun _ => k))
  (at level 61, right associativity).

Definition emit (e : event) : run unit := ([e], Returned tt).

Definition print (line : text) : run unit := emit (Print line).

(** [try: body finally: handler] *)
Definition try_finally {A} (body : run A) (handler : run unit) : run A :=
let (t1, r1) := body in
let (t2, r2) := handler in
(t1 ++ t2, match r2 with Raised e => Raised e | Returned _ => r1 end).

(** [for x in xs: body x] *)
Fixpoint for_each {A} (xs : list A) (body : A -> run unit) : run unit :=
match xs with
| [] => ret tt
| x :: xs' => body x ;;; for_each xs' body
end.

Definition trace {A} (m : run A) : list event := fst m.

Definition result {A} (m : run A) : outcome A := snd m.

(** ** The host *)

Inductive exec_reply :=
| Reply (stdout_lines stderr_lines : list text)
| ExecFails (e : exn).

(** An open SSH session: what each command answers. *)
Record ssh_client := { exec_command : text -> exec_reply }.

Inductive connect_reply :=
| Connected (client : ssh_client)
| ConnectFails (e : text).

(** What [ET.parse] finds: no file, a file that is not well-formed, or
    a tree, given by the children of its root in document order, each
    with its tag and its text; an element without text has [None], as
    [Element.text] has. *)
Inductive xml_document :=
| NoSuchFile
| NotWellFormed
| Tree (root : list (text * option text)).

(** The credentials file and the host behind
    [paramiko.SSHClient.connect]. *)
Record world := {
  xml_file : xml_document;
  connect : text -> text -> text -> connect_reply
}.

(** ** The program *)

(** [root.find(tag)]: the first child with the tag, here its text, or
    [None] when no child has the tag. *)
Fixpoint find (root : list (text * option text)) (tag : text)
  : option (option text) :=
match root with
| [] => None
| (t, body) :: rest => if PyStr.eqb t tag then Some body else find rest tag
end.

(** [element.text.strip()]: both [None.text] and [None.strip()] are an
    [AttributeError]. *)
Definition text_strip (element : option (option text)) : run text :=
match element with
| None => raise AttributeError
| Some None => raise AttributeError
| Some (Some body) => ret (PyStr.strip body)
end.

Definition read_credentials_from_xml (w : world) : run (text * text * text) :=
match xml_file w with
| NoSuchFile => raise FileNotFoundError
| NotWellFormed => raise ParseError
| Tree root =>
    esxi_host <- text_strip (find root (str "host")) ;;
    esxi_user <- text_strip (find root (str "username")) ;;
    esxi_pass <- text_strip (find root (str "password")) ;;
    ret (esxi_host, esxi_user, esxi_pass)
end.

Definition connect_to_esxi (w : world) (hostname username password : text)
  : run (option ssh_client) :=
print (str "Connecting to " ++ hostname ++ str "...") ;;;
match connect w hostname username password with
| Connected client =>
    print (str "Connected successfully!") ;;; ret (Some client)
| ConnectFails e =>
    print (str "Failed to connect: " ++ e) ;;; ret None
end.

Definition execute_command (client : ssh_client) (command : text)
  : run (list text) :=
emit (Exec command) ;;;
match exec_command client command with
| ExecFails e => raise e
| Reply stdout_lines stderr_lines =>
    match stderr_lines with
    | [] => ret tt
    | _ :: _ =>
        print (str "Errors occurred while executing command: "
               ++ concat stderr_lines)
    end ;;;
    ret stdout_lines
end.

Definition esxcli_command : text := str "esxcli --formatter csv vm process list".

(** One turn of the loop of [get_vm_mapping]. *)
Definition add_vm (vm_mapping : dict) (line : text) : dict :=
let parts := PyStr.split_sep ","%char (PyStr.strip line) in
if 5 <=? length parts then
  let vm_name := PyStr.strip (nth 1 parts []) in
  let vm_id := PyStr.strip (nth 4 parts []) in
  dict_set vm_mapping vm_id vm_name
else vm_mapping.

(** The parsing loop of [get_vm_mapping] over [output[1:]]. *)
Definition parse_vm_mapping (output : list text) : dict :=
fold_left add_vm (tl output) [].

Definition get_vm_mapping (client : ssh_client) : run dict :=
print (str "Retrieving VM names and IDs...") ;;;
output <- execute_command client esxcli_command ;;
ret (parse_vm_mapping output).

Definition memstats_command : text :=
str "memstats -r vmtier-stats -u mb -s name:memSize:active:tier0Consumed:tier1Consumed".

(** The inner loop of [retrieve_memory_stats]: one [replace] per item of
    the mapping, in the order [items] gives them. *)
Definition replace_ids (vm_mapping : dict) (line : text) : text :=
fold_left
  (fun line item => PyStr.replace (str "vm." ++ fst item) (snd item) line)
  (items vm_mapping) line.

(** The outer loop of [retrieve_memory_stats]. *)
Definition replace_output (memstats_output : list text) (vm_mapping : dict)
  : list text :=
fold_left
  (fun replaced_output line =>
     replaced_output ++ [PyStr.strip (replace_ids vm_mapping line)])
  memstats_output [].

Definition retrieve_memory_stats (client : ssh_client) (vm_mapping : dict)
  : run (list text) :=
print (str "Retrieving memory stats for VMs backed by NVMe...") ;;;
memstats_output <- execute_command client memstats_command ;;
ret (replace_output memstats_output vm_mapping).

(** [^\S+\s+\d+\s+\d+\s+\d+\s+\d+$] without its anchors. *)
Definition data_pattern : regex :=
Seq (plus (Cls NonSpace))
 (Seq (plus (Cls Space)) (Seq (plus (Cls Digit))
 (Seq (plus (Cls Space)) (Seq (plus (Cls Digit))
 (Seq (plus (Cls Space)) (Seq (plus (Cls Digit))
 (Seq (plus (Cls Space)) (plus (Cls Digit))))))))).

(** [data_pattern.match(line.strip())], the test of the filtering loop. *)
Definition qualifies (line : text) : bool :=
re_match data_pattern (PyStr.strip line).

Definition filter_relevant_lines (memstats_output : list text) : list text :=
fold_left
  (fun relevant_lines line =>
     if qualifies line
     then relevant_lines ++ [PyStr.strip line]
     else relevant_lines)
  memstats_output [].

(** [max(xs)]; empty [xs] is a [ValueError]. *)
Definition py_max (xs : list nat) : run nat :=
match xs with
| [] => raise ValueError
| x :: xs' => ret (fold_left Nat.max xs' x)
end.

(** [header_format.format( *columns )] for a name column [w] wide: five
    replacement fields, so fewer than five arguments is an [IndexError]
    and arguments past the fifth are not used. *)
Definition header_format (w : nat) (columns : list text) : run text :=
match columns with
| c0 :: c1 :: c2 :: c3 :: c4 :: _ =>
    ret (PyStr.ljust w c0 ++ str "  " ++ PyStr.ljust 15 c1 ++ str "  "
         ++ PyStr.ljust 15 c2 ++ str "  " ++ PyStr.ljust 20 c3 ++ str "  "
         ++ PyStr.ljust 20 c4)
| _ => raise IndexError
end.

Definition titles : list text :=
[str "VM Name"; str "MemSize (MB)"; str "Active (MB)";
 str "Tier0 Consumed (MB)"; str "Tier1 Consumed (MB)"].

Definition print_row (w : nat) (columns : list text) : run unit :=
row <- header_format w columns ;; print row.

(** The table: lines 117-128 of [main]. *)
Definition render (vm_mapping : dict) (relevant_lines : list text) : run unit :=
max_vm_name_length <- py_max (map (@length ascii) (values vm_mapping)) ;;
print (str "Memory stats:") ;;;
print_row max_vm_name_length titles ;;;
print (repeat "-"%char (max_vm_name_length + 90)) ;;;
for_each relevant_lines
  (fun line => print_row max_vm_name_length (PyStr.split line)).

(** The body of the [try] block of [main]. *)
Definition session (client : ssh_client) : run unit :=
vm_mapping <- get_vm_mapping client ;;
match vm_mapping with
| [] => print (str "No VMs are currently running on the ESXi host.")
| _ :: _ =>
    memstats_output <- retrieve_memory_stats client vm_mapping ;;
    render vm_mapping (filter_relevant_lines memstats_output)
end.

(** The [finally] block of [main]. *)
Definition close_session : run unit :=
print (str "Closing SSH connection...") ;;;
emit Close ;;;
print (str "SSH connection closed.").

Definition main (w : world) : run unit :=
creds <- read_credentials_from_xml w ;;
let '(esxi_host, esxi_user, esxi_pass) := creds in
ssh_client <- connect_to_esxi w esxi_host esxi_user esxi_pass ;;
match ssh_client with
| None => print (str "Exiting due to connection failure.")
| Some client => try_finally (session client) close_session
end.

(** ** Specification vocabulary *)

(** A run of one or more characters of one class. *)
Definition token_run (k : charclass) (t : text) : Prop :=
t <> [] /\ Forall (fun c => in_class k c = true) t.

(** One non-whitespace token, then four tokens of decimal digits, with a
    run of whitespace between neighbours and nothing before or after. *)
Definition DataRow (s : text) : Prop :=
exists name w1 a w2 b w3 c w4 d,
  s = name ++ w1 ++ a ++ w2 ++ b ++ w3 ++ c ++ w4 ++ d
  /\ token_run NonSpace name
  /\ token_run Space w1 /\ token_run Digit a
  /\ token_run Space w2 /\ token_run Digit b
  /\ token_run Space w3 /\ token_run Digit c
  /\ token_run Space w4 /\ token_run Digit d.

(** A text without blanks at either end, and its tokens: the tokens
    joined by runs of whitespace. *)
Inductive Spaced : text -> list text -> Prop :=
| SpacedLast t : token_run NonSpace t -> Spaced t [t]
| SpacedCons t w s ts :
    token_run NonSpace t -> token_run Space w -> Spaced s ts ->
    Spaced (t ++ w ++ s) (t :: ts).

(** The fields a listing line contributes: [(id, name)] when the line
    has at least five comma-separated fields. *)
Definition row_entry (line : text) : option (text * text) :=
let parts := PyStr.split_sep ","%char (PyStr.strip line) in
if 5 <=? length parts
then Some (PyStr.strip (nth 4 parts []), PyStr.strip (nth 1 parts []))
else None.

(** [s.replace(old, new)] as a relation: scanning from the left, every
    match of [old] is exchanged for [new] and the scan goes on behind
    it; other characters are kept. *)
Inductive Rewrites (old new : text) : text -> text -> Prop :=
| RwEnd : Rewrites old new [] []
| RwHit s t :
    Rewrites old new s t -> Rewrites old new (old ++ s) (new ++ t)
| RwSkip c s t :
    PyStr.startswith old (c :: s) = false ->
    Rewrites old new s t -> Rewrites old new (c :: s) (c :: t).

(** The passes of stage 1 over one line, one per item and in the order
    of the items. *)
Inductive Passes : list (text * text) -> text -> text -> Prop :=
| PassesDone line : Passes [] line line
| PassesStep vm_id vm_name rest line line' line'' :
    Rewrites (str "vm." ++ vm_id) vm_name line line' ->
    Passes rest line' line'' ->
    Passes ((vm_id, vm_name) :: rest) line line''.

(** Following the spec's words: stage 1 of the code with its passes
    taken "in descending order of identifier string length" instead of
    the order of the mapping.  Identifiers of equal length keep the order
    the mapping has them in. *)
Fixpoint insert_by_length (item : text * text) (sorted : list (text * text))
  : list (text * text) :=
match sorted with
| [] => [item]
| other :: rest =>
    if length (fst other) <=? length (fst item) then item :: sorted
    else other :: insert_by_length item rest
end.

Definition by_descending_length (its : list (text * text))
  : list (text * text) :=
fold_right insert_by_length [] its.

Definition spec_replace_output (raw_stats : list text) (mapping : dict)
  : list text :=
map (fun line => PyStr.strip (replace_ids (by_descending_length (items mapping)) line))
    raw_stats.

(** A text in a column [n] wide: the text, then blanks up to [n]
    characters; a longer text is not cut. *)
Definition column (n : nat) (s : text) : text :=
s ++ repeat " "%char (n - length s).

(** A line of the table whose name column is [w] wide: the five
    columns, [w], 15, 15, 20 and 20 wide, two blanks between
    neighbours. *)
Definition table_row (w : nat) (c0 c1 c2 c3 c4 : text) : text :=
column w c0 ++ str "  " ++ column 15 c1 ++ str "  " ++ column 15 c2
  ++ str "  " ++ column 20 c3 ++ str "  " ++ column 20 c4.

(** What [execute_command] prints for the error stream of a command. *)
Definition warning (stderr_lines : list text) : list event :=
match stderr_lines with
| [] => []
| _ :: _ =>
    [Print (str "Errors occurred while executing command: "
            ++ concat stderr_lines)]
end.

(** No event of the trace closes the session. *)
Definition open_throughout (t : list event) : Prop :=
Forall (fun e => e <> Close) t.

(** The number of commas of a listing line. *)
Definition commas (line : text) : nat := count_occ ascii_dec line ","%char.

(** The remote commands of a trace, in the order they were sent. *)
Definition commands_sent (t : list event) : list text :=
flat_map (fun e => match e with Exec command => [command] | _ => [] end) t.

(** ** Sample hosts *)

Definition credentials : list (text * option text) :=
[(str "host", Some (str "esxi01")); (str "username", Some (str "root"));
 (str "password", Some (str "secret"))].

Definition host_of (client : ssh_client) : world :=
{| xml_file := Tree credentials; connect := fun _ _ _ => Connected client |}.

(** A host that answers the listing with [listing] and the statistics
    command with [stats]. *)
Definition answering (listing stats : exec_reply) : ssh_client :=
{| exec_command := fun command =>
     if PyStr.eqb command esxcli_command then listing else stats |}.

Definition listing_header : text :=
str "WorldID,DisplayName,ConfigFile,UUID,VMXCartelID" ++ [newline].

Definition idle_client : ssh_client :=
answering (Reply [listing_header] []) (Reply [] []).

Definition busy_listing : list text :=
[listing_header;
 str "2100,web01,/vmfs/web01.vmx,42 1a,100" ++ [newline];
 str "2200,db01,/vmfs/db01.vmx,42 1b,200" ++ [newline]].

Definition busy_stats : list text :=
[str "vm.100 2048 512 100 20" ++ [newline];
 str "vm.200 4096 1024 200 40" ++ [newline];
 str "garbage line" ++ [newline]].

Definition busy_client : ssh_client :=
answering (Reply busy_listing []) (Reply busy_stats []).

(** A host on which the cartel id of one VM begins the cartel id of
    another. *)
Definition prefix_listing : list text :=
[listing_header;
 str "2100,web01,/vmfs/web01.vmx,42 1a,1" ++ [newline];
 str "2200,db01,/vmfs/db01.vmx,42 1b,10" ++ [newline]].

Definition prefix_stats : list text :=
[str "vm.1 2048 512 100 20" ++ [newline];
 str "vm.10 4096 1024 200 40" ++ [newline]].

Definition prefix_client : ssh_client :=
answering (Reply prefix_listing []) (Reply prefix_stats []).

(** * Properties *)

(** ** Characters and trimming *)

Lemma eqb_eq (a b : text) : PyStr.eqb a b = true <-> a = b.
Proof.
  unfold PyStr.eqb. destruct (list_eq_dec ascii_dec a b); split;
    intros; congruence.
Qed.

Lemma eqb_neq (a b : text) : PyStr.eqb a b = false <-> a <> b.
Proof.
  unfold PyStr.eqb. destruct (list_eq_dec ascii_dec a b); split;
    intros; congruence.
Qed.

Lemma digit_not_space (c : ascii) :
  PyStr.isdigit c = true -> PyStr.isspace c = false.
Proof.
  destruct c as [[] [] [] [] [] [] [] []]; vm_compute; congruence.
Qed.

Lemma newline_is_space : PyStr.isspace newline = true.
Proof. reflexivity. Qed.

Lemma lstrip_head (s : text) c p :
  PyStr.lstrip s = c :: p -> PyStr.isspace c = false.
Proof.
  induction s as [|x s IH]; simpl; [discriminate|].
  destruct (PyStr.isspace x) eqn:E; [exact IH|].
  intros H. injection H as -> _. exact E.
Qed.

Lemma strip_last (s : text) c p :
  rev (PyStr.strip s) = c :: p -> PyStr.isspace c = false.
Proof.
  unfold PyStr.strip, PyStr.rstrip. rewrite rev_involutive.
  apply lstrip_head.
Qed.

Lemma re_match_strip (r : regex) (s : text) :
  re_match r (PyStr.strip s) = accepts r (PyStr.strip s).
Proof.
  unfold re_match.
  destruct (rev (PyStr.strip s)) as [|c p] eqn:E.
  - apply orb_false_r.
  - apply strip_last in E.
    destruct (Ascii.eqb c newline) eqn:N.
    + apply Ascii.eqb_eq in N. subst c. rewrite newline_is_space in E.
      discriminate.
    + apply orb_false_r.
Qed.

(** ** The matcher decides the language *)

Lemma Matches_Seq_inv r1 r2 s :
  Matches (Seq r1 r2) s <->
  exists s1 s2, s = s1 ++ s2 /\ Matches r1 s1 /\ Matches r2 s2.
Proof.
  split.
  - intros H. inversion H; subst. eauto.
  - intros (s1 & s2 & -> & H1 & H2). now constructor.
Qed.

Lemma nullable_Matches (r : regex) : nullable r = true <-> Matches r [].
Proof.
  induction r as [| |k|r1 IH1 r2 IH2|r1 IH1 r2 IH2|r IH]; simpl.
  - split; [discriminate|]. intros H; inversion H.
  - split; [constructor|reflexivity].
  - split; [discriminate|]. intros H; inversion H.
  - rewrite andb_true_iff, IH1, IH2. split.
    + intros [H1 H2]. change (@nil ascii) with (@nil ascii ++ []).
      now constructor.
    + intros H. apply Matches_Seq_inv in H as (s1 & s2 & E & H1 & H2).
      symmetry in E. apply app_eq_nil in E as [-> ->]. now split.
  - rewrite orb_true_iff, IH1, IH2. split.
    + intros [H|H]; [now apply MAltL|now apply MAltR].
    + intros H. inversion H; subst; auto.
  - split; [constructor|reflexivity].
Qed.

Lemma Matches_cons (r : regex) :
  forall s, Matches r s ->
  forall c s', s = c :: s' -> Matches (deriv c r) s'.
Proof.
  induction 1 as [|k x Hx|r1 r2 s1 s2 H1 IH1 H2 IH2|r1 r2 s H IH
                  |r1 r2 s H IH|r|r s1 s2 H1 IH1 H2 IH2];
    intros c s' E; simpl.
  - discriminate.
  - injection E as -> <-. rewrite Hx. constructor.
  - destruct s1 as [|x s1].
    + simpl in E. apply nullable_Matches in H1. rewrite H1.
      apply MAltR. now apply IH2.
    + injection E as -> <-. apply MAltL. constructor; [|exact H2].
      now apply IH1.
  - apply MAltL. now apply IH.
  - apply MAltR. now apply IH.
  - discriminate.
  - destruct s1 as [|x s1].
    + simpl in E. specialize (IH2 _ _ E). exact IH2.
    + injection E as -> <-. constructor; [|exact H2]. now apply IH1.
Qed.

Lemma deriv_Matches (r : regex) :
  forall c s, Matches (deriv c r) s -> Matches r (c :: s).
Proof.
  induction r as [| |k|r1 IH1 r2 IH2|r1 IH1 r2 IH2|r IH]; simpl;
    intros c s H.
  - inversion H.
  - inversion H.
  - destruct (in_class k c) eqn:E; inversion H; subst. now constructor.
  - inversion H as [| | |? ? ? HL|? ? ? HR| |]; subst.
    + apply Matches_Seq_inv in HL as (s1 & s2 & -> & H1 & H2).
      change (c :: s1 ++ s2) with ((c :: s1) ++ s2).
      constructor; auto.
    + destruct (nullable r1) eqn:N; [|inversion HR].
      change (c :: s) with ([] ++ c :: s).
      constructor; [now apply nullable_Matches|auto].
  - inversion H; subst; [apply MAltL|apply MAltR]; auto.
  - apply Matches_Seq_inv in H as (s1 & s2 & -> & H1 & H2).
    change (c :: s1 ++ s2) with ((c :: s1) ++ s2).
    constructor; auto.
Qed.

Lemma accepts_Matches (r : regex) (s : text) :
  accepts r s = true <-> Matches r s.
Proof.
  revert r. induction s as [|c s IH]; intros r; simpl.
  - apply nullable_Matches.
  - rewrite IH. split.
    + apply deriv_Matches.
    + intros H. now apply Matches_cons with (s := c :: s).
Qed.

Lemma Matches_Star_cls k s :
  Matches (Star (Cls k)) s <-> Forall (fun c => in_class k c = true) s.
Proof.
  split.
  - intros H. remember (Star (Cls k)) as r eqn:Er.
    induction H as [| | | | |r0|r0 s1 s2 H1 _ H2 IH2]; try discriminate.
    + constructor.
    + injection Er as ->. inversion H1; subst. simpl.
      constructor; auto.
  - induction 1 as [|c s Hc _ IH].
    + constructor.
    + change (c :: s) with ([c] ++ s). constructor; [|exact IH].
      now constructor.
Qed.

Lemma Matches_plus_cls k s :
  Matches (plus (Cls k)) s <-> token_run k s.
Proof.
  unfold plus, token_run. rewrite Matches_Seq_inv. split.
  - intros (s1 & s2 & -> & H1 & H2). inversion H1; subst. simpl.
    split; [discriminate|]. constructor; [assumption|].
    now apply Matches_Star_cls.
  - intros [Hne H]. destruct s as [|c s]; [congruence|].
    inversion H; subst. exists [c], s. split; [reflexivity|].
    split; [now constructor|now apply Matches_Star_cls].
Qed.

Lemma data_pattern_DataRow (s : text) :
  Matches data_pattern s <-> DataRow s.
Proof.
  unfold data_pattern, DataRow. split.
  - intros H.
    repeat (apply Matches_Seq_inv in H;
            destruct H as (? & ? & -> & ?%Matches_plus_cls & H)).
    apply Matches_plus_cls in H.
    do 9 eexists. split; [reflexivity|].
    repeat (split; [assumption|]). assumption.
  - intros (name & w1 & a & w2 & b & w3 & c & w4 & d & -> & H).
    repeat (constructor; [apply Matches_plus_cls; tauto|]).
    apply Matches_plus_cls; tauto.
Qed.

(** ** Splitting on whitespace *)

Lemma split_scan_token tok t rest :
  Forall (fun c => in_class NonSpace c = true) t ->
  PyStr.split_scan tok (t ++ rest) = PyStr.split_scan (tok ++ t) rest.
Proof.
  intros H. revert tok.
  induction H as [|c t Hc _ IH]; intros tok; simpl.
  - now rewrite app_nil_r.
  - simpl in Hc. apply negb_true_iff in Hc. rewrite Hc, IH.
    now rewrite <- app_assoc.
Qed.

Lemma split_scan_blank w rest :
  Forall (fun c => in_class Space c = true) w ->
  PyStr.split_scan [] (w ++ rest) = PyStr.split_scan [] rest.
Proof.
  induction 1 as [|c w Hc _ IH]; simpl; [reflexivity|].
  simpl in Hc. now rewrite Hc.
Qed.

Lemma split_scan_gap tok w rest :
  token_run Space w ->
  PyStr.split_scan tok (w ++ rest)
  = PyStr.flush tok ++ PyStr.split_scan [] rest.
Proof.
  intros [Hne H]. destruct H as [|c w Hc Hw]; [congruence|].
  simpl in *. rewrite Hc. f_equal. now apply split_scan_blank.
Qed.

Lemma digits_are_token k t :
  k = Digit \/ k = NonSpace -> token_run k t -> token_run NonSpace t.
Proof.
  intros Hk [Hne H]. split; [exact Hne|].
  destruct Hk as [-> | ->]; [|exact H].
  eapply Forall_impl; [|exact H]. simpl. intros c Hc.
  now rewrite (digit_not_space _ Hc).
Qed.

Lemma split_token_gap tok w rest :
  token_run NonSpace tok -> token_run Space w ->
  PyStr.split_scan [] (tok ++ w ++ rest) = tok :: PyStr.split_scan [] rest.
Proof.
  intros [Hne H] Hw. rewrite split_scan_token by exact H. simpl.
  rewrite split_scan_gap by exact Hw.
  destruct tok; [congruence|reflexivity].
Qed.

Lemma split_last_token tok :
  token_run NonSpace tok -> PyStr.split_scan [] tok = [tok].
Proof.
  intros [Hne H]. rewrite <- (app_nil_r tok) at 1.
  rewrite split_scan_token by exact H. simpl.
  destruct tok; [congruence|reflexivity].
Qed.

Lemma DataRow_split (s : text) :
  DataRow s ->
  exists name a b c d,
    PyStr.split s = [name; a; b; c; d]
    /\ token_run NonSpace name /\ token_run Digit a /\ token_run Digit b
    /\ token_run Digit c /\ token_run Digit d.
Proof.
  intros (name & w1 & a & w2 & b & w3 & c & w4 & d & -> & Hn & H1 & Ha
          & H2 & Hb & H3 & Hc & H4 & Hd).
  exists name, a, b, c, d. split; [|tauto].
  unfold PyStr.split.
  rewrite split_token_gap by assumption.
  rewrite !split_token_gap by (eauto using digits_are_token).
  rewrite split_last_token by (eauto using digits_are_token).
  reflexivity.
Qed.

Ltac reassoc := repeat (simpl; rewrite <- ?app_assoc); simpl.

Lemma rstrip_cons (c : ascii) (s : text) :
  PyStr.isspace c = false -> PyStr.rstrip (c :: s) = c :: PyStr.rstrip s.
Proof.
  intros Hc. unfold PyStr.rstrip. simpl.
  assert (E : forall a, PyStr.lstrip (a ++ [c]) = PyStr.lstrip a ++ [c]).
  { induction a as [|x a IH]; simpl; [now rewrite Hc|].
    now destruct (PyStr.isspace x). }
  rewrite E, rev_app_distr. reflexivity.
Qed.

Lemma strip_first (s : text) c p :
  PyStr.strip s = c :: p -> PyStr.isspace c = false.
Proof.
  unfold PyStr.strip. destruct (PyStr.lstrip s) as [|x rest] eqn:E.
  - discriminate.
  - apply lstrip_head in E. rewrite rstrip_cons by exact E.
    intros H. injection H as -> _. exact E.
Qed.

Lemma span_token (s : text) :
  exists t r,
    s = t ++ r /\ Forall (fun c => in_class NonSpace c = true) t
    /\ (r = [] \/ exists c r', r = c :: r' /\ PyStr.isspace c = true).
Proof.
  induction s as [|x s (t & r & -> & Ht & Hr)].
  - exists [], []. auto.
  - destruct (PyStr.isspace x) eqn:E.
    + exists [], (x :: t ++ r). split; [reflexivity|]. split; [constructor|].
      right. eauto.
    + exists (x :: t), r. split; [reflexivity|]. split; [|exact Hr].
      constructor; [|exact Ht]. simpl. now rewrite E.
Qed.

Lemma span_blank (s : text) :
  exists w r,
    s = w ++ r /\ Forall (fun c => in_class Space c = true) w
    /\ (r = [] \/ exists c r', r = c :: r' /\ PyStr.isspace c = false).
Proof.
  induction s as [|x s (w & r & -> & Hw & Hr)].
  - exists [], []. auto.
  - destruct (PyStr.isspace x) eqn:E.
    + exists (x :: w), r. split; [reflexivity|]. split; [|exact Hr].
      constructor; [exact E|exact Hw].
    + exists [], (x :: w ++ r). split; [reflexivity|]. split; [constructor|].
      right. eauto.
Qed.

Lemma Spaced_split (s : text) (ts : list text) :
  Spaced s ts -> PyStr.split s = ts.
Proof.
  unfold PyStr.split.
  induction 1 as [t Ht|t w s ts Ht Hw _ IH].
  - now apply split_last_token.
  - rewrite split_token_gap by assumption. now rewrite IH.
Qed.

Lemma Spaced_exists (n : nat) :
  forall (c : ascii) (s : text),
    length s <= n ->
    PyStr.isspace c = false ->
    (forall p x, c :: s = p ++ [x] -> PyStr.isspace x = false) ->
    exists ts, Spaced (c :: s) ts.
Proof.
  induction n as [|n IH]; intros c s Hlen Hc Hend.
  - destruct s; [|simpl in Hlen; lia].
    exists [[c]]. constructor. split; [discriminate|].
    repeat constructor. simpl. now rewrite Hc.
  - destruct (span_token s) as (t & r & -> & Ht & Hr).
    assert (Htok : token_run NonSpace (c :: t)).
    { split; [discriminate|]. constructor; [|exact Ht]. simpl.
      now rewrite Hc. }
    destruct Hr as [->|(x & r' & -> & Hx)].
    { rewrite app_nil_r. exists [c :: t]. now constructor. }
    destruct (span_blank r') as (w & r & -> & Hw & Hr).
    assert (Hgap : token_run Space (x :: w)).
    { split; [discriminate|]. constructor; [exact Hx|exact Hw]. }
    destruct Hr as [->|(y & r2 & -> & Hy)].
    + exfalso. destruct (exists_last (l := x :: w)) as (p & z & E);
        [discriminate|].
      assert (Hz : PyStr.isspace z = true).
      { destruct Hgap as [_ Hall]. rewrite E in Hall.
        apply Forall_app in Hall as [_ Hall]. now inversion Hall. }
      rewrite (Hend ((c :: t) ++ p) z) in Hz; [discriminate|].
      rewrite app_nil_r, E. now reassoc.
    + destruct (IH y r2) as (ts & Hts).
      * rewrite !length_app in Hlen. simpl in Hlen.
        rewrite length_app in Hlen. simpl in Hlen. lia.
      * exact Hy.
      * intros p z E. apply (Hend ((c :: t) ++ (x :: w) ++ p) z).
        rewrite E. now reassoc.
      * exists ((c :: t) :: ts).
        change (c :: t ++ x :: w ++ y :: r2)
          with ((c :: t) ++ (x :: w) ++ y :: r2).
        now constructor.
Qed.

Lemma strip_Spaced (line : text) :
  PyStr.strip line = [] \/ exists ts, Spaced (PyStr.strip line) ts.
Proof.
  destruct (PyStr.strip line) as [|c s] eqn:E; [now left|right].
  apply Spaced_exists with (n := length s); [lia| |].
  - eapply strip_first. exact E.
  - intros p x Ep. apply (strip_last line (c := x) (p := rev p)).
    rewrite E, Ep, rev_app_distr. reflexivity.
Qed.

Lemma Spaced_last_inv (s t : text) :
  Spaced s [t] -> s = t /\ token_run NonSpace t.
Proof.
  intros H. inversion H as [? Ht|? ? ? ? _ _ Hs]; subst; [now split|].
  inversion Hs.
Qed.

Lemma Spaced_cons_inv (s t t' : text) (ts : list text) :
  Spaced s (t :: t' :: ts) ->
  exists w s',
    s = t ++ w ++ s' /\ token_run NonSpace t /\ token_run Space w
    /\ Spaced s' (t' :: ts).
Proof.
  intros H. inversion H as [|? w s' ? Ht Hw Hs]; subst.
  exists w, s'. repeat split; assumption || apply Ht || apply Hw.
Qed.

Lemma tokens_DataRow (s name a b c d : text) :
  Spaced s [name; a; b; c; d] ->
  token_run Digit a -> token_run Digit b ->
  token_run Digit c -> token_run Digit d ->
  DataRow s.
Proof.
  intros H Ha Hb Hc Hd.
  apply Spaced_cons_inv in H as (w1 & s1 & -> & Hn & H1 & H).
  apply Spaced_cons_inv in H as (w2 & s2 & -> & _ & H2 & H).
  apply Spaced_cons_inv in H as (w3 & s3 & -> & _ & H3 & H).
  apply Spaced_cons_inv in H as (w4 & s4 & -> & _ & H4 & H).
  apply Spaced_last_inv in H as (-> & _).
  exists name, w1, a, w2, b, w3, c, w4, d. tauto.
Qed.

(** ** Loops that append to a list *)

Lemma fold_left_append_map {A B} (f : A -> B) (xs : list A) (acc : list B) :
  fold_left (fun acc x => acc ++ [f x]) xs acc = acc ++ map f xs.
Proof.
  revert acc. induction xs as [|x xs IH]; intros acc; simpl.
  - now rewrite app_nil_r.
  - rewrite IH, <- app_assoc. reflexivity.
Qed.

Lemma fold_left_append_filter {A B} (p : A -> bool) (f : A -> B)
      (xs : list A) (acc : list B) :
  fold_left (fun acc x => if p x then acc ++ [f x] else acc) xs acc
  = acc ++ map f (filter p xs).
Proof.
  revert acc. induction xs as [|x xs IH]; intros acc; simpl.
  - now rewrite app_nil_r.
  - rewrite IH. destruct (p x); simpl; [|reflexivity].
    now rewrite <- app_assoc.
Qed.

(** ** Stage 2: filtering *)

Lemma qualifies_DataRow (line : text) :
  qualifies line = true <-> DataRow (PyStr.strip line).
Proof.
  unfold qualifies. rewrite re_match_strip, accepts_Matches.
  apply data_pattern_DataRow.
Qed.

Lemma filter_relevant_lines_filter (memstats_output : list text) :
  filter_relevant_lines memstats_output
  = map PyStr.strip (filter qualifies memstats_output).
Proof.
  unfold filter_relevant_lines.
  now rewrite fold_left_append_filter.
Qed.

Lemma qualifies_iff_tokens (line : text) :
  qualifies line = true <->
  exists name a b c d,
    PyStr.split (PyStr.strip line) = [name; a; b; c; d]
    /\ token_run Digit a /\ token_run Digit b
    /\ token_run Digit c /\ token_run Digit d.
Proof.
  split.
  - intros H. apply qualifies_DataRow, DataRow_split in H.
    destruct H as (name & a & b & c & d & E & _ & H).
    exists name, a, b, c, d. now split.
  - intros (name & a & b & c & d & E & Ha & Hb & Hc & Hd).
    apply qualifies_DataRow.
    destruct (strip_Spaced line) as [Hnil|(ts & Hts)].
    + rewrite Hnil in E. discriminate.
    + pose proof (Spaced_split Hts) as Es. rewrite E in Es. subst ts.
      eapply tokens_DataRow; eassumption.
Qed.

(** C3: a line is kept exactly when its trimmed text is one
    non-whitespace token followed by four tokens of decimal digits, with
    runs of whitespace between them, that is, when it splits on
    whitespace into five tokens of which the last four are decimal; the
    filter is a total function that returns the trimmed qualifying
    lines, in order, and nothing else. *)
Theorem filter_relevant_lines_correct :
  (forall line, qualifies line = true <-> DataRow (PyStr.strip line))
  /\ (forall line,
        qualifies line = true <->
        exists name a b c d,
          PyStr.split (PyStr.strip line) = [name; a; b; c; d]
          /\ token_run Digit a /\ token_run Digit b
          /\ token_run Digit c /\ token_run Digit d)
  /\ (forall memstats_output,
        filter_relevant_lines memstats_output
        = map PyStr.strip (filter qualifies memstats_output))
  /\ (forall memstats_output kept,
        In kept (filter_relevant_lines memstats_output) <->
        exists line, In line memstats_output
                     /\ kept = PyStr.strip line /\ DataRow kept).
Proof.
  split; [exact qualifies_DataRow|].
  split; [exact qualifies_iff_tokens|].
  split; [exact filter_relevant_lines_filter|].
  intros out kept. rewrite filter_relevant_lines_filter, in_map_iff.
  split.
  - intros (line & <- & Hin). apply filter_In in Hin as [Hin Hq].
    exists line. split; [exact Hin|]. split; [reflexivity|].
    now apply qualifies_DataRow.
  - intros (line & Hin & -> & Hrow). exists line. split; [reflexivity|].
    apply filter_In. split; [exact Hin|]. now apply qualifies_DataRow.
Qed.

Lemma qualifies_tokens (line : text) :
  qualifies line = true ->
  exists name a b c d,
    PyStr.split (PyStr.strip line) = [name; a; b; c; d]
    /\ token_run Digit a /\ token_run Digit b
    /\ token_run Digit c /\ token_run Digit d.
Proof.
  apply qualifies_iff_tokens.
Qed.


Lemma non_numeric_tail_rejected (line : text) (c : ascii) :
  In c (last (PyStr.split (PyStr.strip line)) []) ->
  PyStr.isdigit c = false -> qualifies line = false.
Proof.
  intros Hin Hc. destruct (qualifies line) eqn:Q; [|reflexivity].
  apply qualifies_tokens in Q as (? & ? & ? & ? & d & E & _ & _ & _ & [_ Hd]).
  rewrite E in Hin. simpl in Hin.
  rewrite Forall_forall in Hd. apply Hd in Hin. simpl in Hin. congruence.
Qed.

Example data_row_kept : qualifies (str "diskvm   512   100   50   10") = true.
Proof. reflexivity. Qed.

Example four_tokens_dropped : qualifies (str "diskvm 512 100 50") = false.
Proof. reflexivity. Qed.

Example non_numeric_dropped : qualifies (str "diskvm 512 100 50 1x") = false.
Proof. reflexivity. Qed.

Example noise_dropped :
  filter_relevant_lines
    [str "name memSize active tier0Consumed tier1Consumed"; str "";
     str "-----"; str "web01 2048 512 100 20" ++ [newline]; str "garbage line"]
  = [str "web01 2048 512 100 20"].
Proof. reflexivity. Qed.

(** ** Laws of runs *)

Lemma bind_ret_l {A B} (a : A) (f : A -> run B) : bind (ret a) f = f a.
Proof. unfold bind, ret. now destruct (f a). Qed.

Lemma bind_emit {B} (e : event) (k : run B) :
  (emit e ;;; k) = (e :: trace k, result k).
Proof. unfold bind, emit. now destruct k. Qed.

Lemma bind_returned {A B} (m : run A) (f : A -> run B) (a : A) :
  result m = Returned a ->
  bind m f = (trace m ++ trace (f a), result (f a)).
Proof.
  destruct m as [t r]. simpl. intros ->. simpl. now destruct (f a).
Qed.

Lemma bind_raised {A B} (m : run A) (f : A -> run B) (e : exn) :
  result m = Raised e -> bind m f = (trace m, Raised e).
Proof. destruct m as [t r]. simpl. now intros ->. Qed.

Lemma run_eta {A} (m : run A) : m = (trace m, result m).
Proof. now destruct m. Qed.

(** ** Stage 3: rendering *)

Lemma header_format_total (w : nat) (columns : list text) :
  5 <= length columns -> exists row, header_format w columns = ret row.
Proof.
  destruct columns as [|c0 [|c1 [|c2 [|c3 [|c4 rest]]]]]; simpl;
    try lia.
  intros _. eexists. reflexivity.
Qed.

Lemma filtered_line_tokens (memstats_output : list text) (line : text) :
  In line (filter_relevant_lines memstats_output) ->
  length (PyStr.split line) = 5.
Proof.
  rewrite filter_relevant_lines_filter, in_map_iff.
  intros (raw & <- & Hin). apply filter_In in Hin as [_ Hrow].
  apply qualifies_DataRow in Hrow.
  apply DataRow_split in Hrow as (? & ? & ? & ? & ? & -> & _).
  reflexivity.
Qed.

(** C10: a line that passed the filter splits on whitespace into exactly
    five tokens, so the five-field row format applied to them returns a
    row and raises nothing, whatever the width of the name column. *)
Theorem filtered_line_formats :
  forall (memstats_output : list text) (line : text) (w : nat),
    In line (filter_relevant_lines memstats_output) ->
    length (PyStr.split line) = 5
    /\ exists row, header_format w (PyStr.split line) = ret row.
Proof.
  intros out line w H. apply filtered_line_tokens in H.
  split; [exact H|]. apply header_format_total. lia.
Qed.

Lemma filtered_line_formats_witness :
  In (str "web01 2048 512 100 20")
     (filter_relevant_lines [str "vm stats"; str "web01 2048 512 100 20"])
  /\ (length (PyStr.split (str "web01 2048 512 100 20")) = 5
      /\ exists row,
           header_format 5 (PyStr.split (str "web01 2048 512 100 20"))
           = ret row).
Proof.
  split.
  - vm_compute. left. reflexivity.
  - apply (@filtered_line_formats [str "vm stats"; str "web01 2048 512 100 20"]).
    vm_compute. left. reflexivity.
Defined.

Lemma print_rows (w : nat) (lines : list text) :
  Forall (fun line => 5 <= length (PyStr.split line)) lines ->
  exists rows,
    for_each lines (fun line => print_row w (PyStr.split line))
    = (map Print rows, Returned tt)
    /\ Forall2 (fun line row => header_format w (PyStr.split line) = ret row)
               lines rows.
Proof.
  induction 1 as [|line lines Hline _ (rows & Erows & Hrows)].
  - exists []. split; [reflexivity|constructor].
  - destruct (header_format_total w _ Hline) as (row & Erow).
    exists (row :: rows). split; [|now constructor].
    simpl. unfold print_row at 1. rewrite Erow, bind_ret_l.
    unfold print. rewrite bind_emit, Erows. reflexivity.
Qed.

Lemma fold_left_max (xs : list nat) (x : nat) :
  fold_left Nat.max xs x = list_max (x :: xs).
Proof.
  revert x. induction xs as [|y xs IH]; intros x; simpl.
  - lia.
  - rewrite IH. simpl. lia.
Qed.

Lemma list_max_attained (xs : list nat) :
  xs <> [] -> In (list_max xs) xs.
Proof.
  induction xs as [|x xs IH]; [congruence|]. intros _.
  destruct xs as [|y xs].
  - left. simpl. lia.
  - change (list_max (x :: y :: xs)) with (Nat.max x (list_max (y :: xs))).
    destruct (Nat.max_spec x (list_max (y :: xs))) as [[_ ->]|[_ ->]].
    + right. apply IH. discriminate.
    + now left.
Qed.

Lemma py_max_list_max (xs : list nat) :
  xs <> [] -> py_max xs = ret (list_max xs).
Proof.
  destruct xs as [|x xs]; [congruence|]. intros _.
  unfold py_max. now rewrite fold_left_max.
Qed.

(** What [render] prints before the data rows, for a mapping that is not
    empty. *)
Lemma render_heading (vm_mapping : dict) (relevant_lines : list text) :
  vm_mapping <> [] ->
  let w := list_max (map (@length ascii) (values vm_mapping)) in
  exists heading,
    header_format w titles = ret heading
    /\ render vm_mapping relevant_lines
       = (Print (str "Memory stats:") :: Print heading
            :: Print (repeat "-"%char (w + 90))
            :: trace (for_each relevant_lines
                        (fun line => print_row w (PyStr.split line))),
          result (for_each relevant_lines
                    (fun line => print_row w (PyStr.split line)))).
Proof.
  intros Hne w.
  destruct (header_format_total w titles) as (heading & Eh);
    [simpl; lia|].
  exists heading. split; [exact Eh|].
  unfold render. rewrite py_max_list_max.
  2:{ destruct vm_mapping; [congruence|discriminate]. }
  rewrite bind_ret_l. fold w.
  unfold print_row at 1. rewrite Eh, bind_ret_l.
  unfold print. rewrite !bind_emit. reflexivity.
Qed.

Lemma header_format_table_row (w : nat) (c0 c1 c2 c3 c4 : text)
      (more : list text) :
  header_format w (c0 :: c1 :: c2 :: c3 :: c4 :: more)
  = ret (table_row w c0 c1 c2 c3 c4).
Proof. reflexivity. Qed.

Lemma column_length (n : nat) (s : text) :
  length (column n s) = Nat.max n (length s).
Proof. unfold column. rewrite length_app, repeat_length. lia. Qed.

Lemma print_table_rows (w : nat) (lines : list text) :
  Forall (fun line => 5 <= length (PyStr.split line)) lines ->
  exists rows,
    for_each lines (fun line => print_row w (PyStr.split line))
    = (map Print rows, Returned tt)
    /\ Forall2
         (fun line row =>
            exists c0 c1 c2 c3 c4 more,
              PyStr.split line = c0 :: c1 :: c2 :: c3 :: c4 :: more
              /\ row = table_row w c0 c1 c2 c3 c4)
         lines rows.
Proof.
  induction 1 as [|line lines Hline _ (rows & Erows & Hrows)].
  - exists []. split; [reflexivity|constructor].
  - destruct (PyStr.split line) as [|c0 [|c1 [|c2 [|c3 [|c4 more]]]]] eqn:E;
      simpl in Hline; try lia.
    exists (table_row w c0 c1 c2 c3 c4 :: rows). split.
    + simpl. unfold print_row at 1.
      rewrite E, header_format_table_row, bind_ret_l.
      unfold print. rewrite bind_emit, Erows. reflexivity.
    + constructor; [|exact Hrows].
      exists c0, c1, c2, c3, c4, more. now split.
Qed.

(** C4: for a mapping that is not empty, the width [w] of the name
    column is the greatest length of a name among all values of the
    mapping, whatever lines are rendered: the heading and every data
    row are printed with a name column [w] wide (the name, then blanks
    up to [w] characters, which every name of the mapping fills
    exactly), and the rule under the heading is [w + 90] dashes. *)
Theorem name_column_width :
  forall (vm_mapping : dict) (relevant_lines : list text),
    vm_mapping <> [] ->
    Forall (fun line => 5 <= length (PyStr.split line)) relevant_lines ->
    exists w rows,
      w = list_max (map (@length ascii) (values vm_mapping))
      /\ Forall (fun vm_name => length vm_name <= w) (values vm_mapping)
      /\ (exists vm_name, In vm_name (values vm_mapping) /\ length vm_name = w)
      /\ Forall (fun vm_name => length (column w vm_name) = w)
                (values vm_mapping)
      /\ render vm_mapping relevant_lines
         = ([Print (str "Memory stats:");
             Print (table_row w (str "VM Name") (str "MemSize (MB)")
                      (str "Active (MB)") (str "Tier0 Consumed (MB)")
                      (str "Tier1 Consumed (MB)"));
             Print (repeat "-"%char (w + 90))]
              ++ map Print rows,
            Returned tt)
      /\ length (repeat "-"%char (w + 90)) = w + 90
      /\ Forall2
           (fun line row =>
              exists c0 c1 c2 c3 c4 more,
                PyStr.split line = c0 :: c1 :: c2 :: c3 :: c4 :: more
                /\ row = table_row w c0 c1 c2 c3 c4)
           relevant_lines rows.
Proof.
  intros m lines Hne Hlines.
  destruct (render_heading lines Hne) as (heading & Eh & Er).
  set (w := list_max (map (@length ascii) (values m))) in *.
  destruct (print_table_rows w Hlines) as (rows & Erows & Hrows).
  assert (Hle : Forall (fun vm_name => length vm_name <= w) (values m)).
  { assert (H : Forall (fun k => k <= w) (map (@length ascii) (values m)))
      by (apply list_max_le; reflexivity).
    rewrite Forall_map in H. exact H. }
  exists w, rows. split; [reflexivity|]. split; [exact Hle|].
  split; [|split; [|split; [|split]]].
  - assert (H : In w (map (@length ascii) (values m))).
    { apply list_max_attained. destruct m; [congruence|discriminate]. }
    apply in_map_iff in H as (vm_name & E & Hin). eauto.
  - eapply Forall_impl; [|exact Hle]. intros vm_name H. cbv beta in *.
    rewrite column_length. apply Nat.max_l. exact H.
  - rewrite Er, Erows. unfold titles in Eh.
    rewrite header_format_table_row in Eh. injection Eh as <-.
    reflexivity.
  - apply repeat_length.
  - exact Hrows.
Qed.

Lemma name_column_width_witness :
  [(str "100", str "web01"); (str "200", str "database-02")] <> []
  /\ Forall (fun line => 5 <= length (PyStr.split line))
            [str "web01 2048 512 100 20"]
  /\ exists w rows,
      w = list_max (map (@length ascii)
            (values [(str "100", str "web01"); (str "200", str "database-02")]))
      /\ Forall (fun vm_name => length vm_name <= w)
                (values [(str "100", str "web01"); (str "200", str "database-02")])
      /\ (exists vm_name,
            In vm_name
               (values [(str "100", str "web01"); (str "200", str "database-02")])
            /\ length vm_name = w)
      /\ Forall (fun vm_name => length (column w vm_name) = w)
                (values [(str "100", str "web01"); (str "200", str "database-02")])
      /\ render [(str "100", str "web01"); (str "200", str "database-02")]
                [str "web01 2048 512 100 20"]
         = ([Print (str "Memory stats:");
             Print (table_row w (str "VM Name") (str "MemSize (MB)")
                      (str "Active (MB)") (str "Tier0 Consumed (MB)")
                      (str "Tier1 Consumed (MB)"));
             Print (repeat "-"%char (w + 90))]
              ++ map Print rows,
            Returned tt)
      /\ length (repeat "-"%char (w + 90)) = w + 90
      /\ Forall2
           (fun line row =>
              exists c0 c1 c2 c3 c4 more,
                PyStr.split line = c0 :: c1 :: c2 :: c3 :: c4 :: more
                /\ row = table_row w c0 c1 c2 c3 c4)
           [str "web01 2048 512 100 20"] rows.
Proof.
  assert (H : Forall (fun line => 5 <= length (PyStr.split line))
                     [str "web01 2048 512 100 20"]).
  { repeat constructor. }
  split; [discriminate|]. split; [exact H|].
  apply (@name_column_width
           [(str "100", str "web01"); (str "200", str "database-02")]
           [str "web01 2048 512 100 20"]).
  - discriminate.
  - exact H.
Defined.

Example rule_of_95_dashes :
  nth 2 (trace (render [(str "100", str "web01"); (str "200", str "db01")] []))
      Close
  = Print (repeat "-"%char 95).
Proof. reflexivity. Qed.

Example width_from_absent_vm :
  trace (render [(str "100", str "web01"); (str "200", str "database-02")]
                [str "web01 1 2 3 4"])
  = [Print (str "Memory stats:");
     Print (str "VM Name      MemSize (MB)     Active (MB)      Tier0 Consumed (MB)   Tier1 Consumed (MB) ");
     Print (repeat "-"%char 101);
     Print (str "web01        1                2                3                     4                   ")].
Proof. reflexivity. Qed.

(** C7: for a mapping that is not empty, stage 3 prints the banner, the
    heading and the rule and then one row per line that stage 2 kept,
    each the format of that line's columns, in the order of those lines,
    and ends normally. *)
Theorem render_one_row_per_line :
  forall (vm_mapping : dict) (memstats_output : list text),
    vm_mapping <> [] ->
    exists w heading rows,
      render vm_mapping (filter_relevant_lines memstats_output)
      = ([Print (str "Memory stats:"); Print heading;
          Print (repeat "-"%char (w + 90))] ++ map Print rows,
         Returned tt)
      /\ length rows = length (filter_relevant_lines memstats_output)
      /\ Forall2
           (fun line row => header_format w (PyStr.split line) = ret row)
           (filter_relevant_lines memstats_output) rows.
Proof.
  intros m out Hne.
  destruct (render_heading (filter_relevant_lines out) Hne)
    as (heading & _ & Er).
  set (w := list_max (map (@length ascii) (values m))) in *.
  destruct (print_rows w (lines := filter_relevant_lines out))
    as (rows & Erows & Hrows).
  { apply Forall_forall. intros line Hin.
    rewrite (filtered_line_tokens _ _ Hin). lia. }
  exists w, heading, rows. rewrite Er, Erows. simpl.
  split; [reflexivity|]. split; [|exact Hrows].
  symmetry. eapply Forall2_length. exact Hrows.
Qed.

Lemma render_one_row_per_line_witness :
  [(str "100", str "web01")] <> []
  /\ exists w heading rows,
      render [(str "100", str "web01")]
             (filter_relevant_lines [str "web01 2048 512 100 20"; str "noise"])
      = ([Print (str "Memory stats:"); Print heading;
          Print (repeat "-"%char (w + 90))] ++ map Print rows,
         Returned tt)
      /\ length rows
         = length (filter_relevant_lines [str "web01 2048 512 100 20"; str "noise"])
      /\ Forall2
           (fun line row => header_format w (PyStr.split line) = ret row)
           (filter_relevant_lines [str "web01 2048 512 100 20"; str "noise"])
           rows.
Proof.
  split; [discriminate|].
  apply (@render_one_row_per_line [(str "100", str "web01")]).
  discriminate.
Defined.

(** ** Remote commands *)

Lemma execute_command_reply client command stdout_lines stderr_lines :
  exec_command client command = Reply stdout_lines stderr_lines ->
  execute_command client command
  = (Exec command :: warning stderr_lines, Returned stdout_lines).
Proof.
  intros E. unfold execute_command. rewrite E.
  now destruct stderr_lines.
Qed.

Lemma execute_command_fails client command e :
  exec_command client command = ExecFails e ->
  execute_command client command = ([Exec command], Raised e).
Proof. intros E. unfold execute_command. now rewrite E. Qed.

Lemma get_vm_mapping_reply client stdout_lines stderr_lines :
  exec_command client esxcli_command = Reply stdout_lines stderr_lines ->
  get_vm_mapping client
  = (Print (str "Retrieving VM names and IDs...") :: Exec esxcli_command
       :: warning stderr_lines,
     Returned (parse_vm_mapping stdout_lines)).
Proof.
  intros E. unfold get_vm_mapping.
  rewrite (execute_command_reply _ _ E).
  unfold bind, print, emit, ret. simpl. now rewrite app_nil_r.
Qed.

Lemma connect_to_esxi_connected w hostname username password client :
  connect w hostname username password = Connected client ->
  connect_to_esxi w hostname username password
  = ([Print (str "Connecting to " ++ hostname ++ str "...");
      Print (str "Connected successfully!")],
     Returned (Some client)).
Proof. intros E. unfold connect_to_esxi. now rewrite E. Qed.

Lemma close_session_run :
  close_session
  = ([Print (str "Closing SSH connection..."); Close;
      Print (str "SSH connection closed.")],
     Returned tt).
Proof. reflexivity. Qed.

Lemma main_connected w hostname username password client :
  read_credentials_from_xml w = ret (hostname, username, password) ->
  connect w hostname username password = Connected client ->
  main w
  = ([Print (str "Connecting to " ++ hostname ++ str "...");
      Print (str "Connected successfully!")]
       ++ trace (session client)
       ++ [Print (str "Closing SSH connection..."); Close;
           Print (str "SSH connection closed.")],
     result (session client)).
Proof.
  intros Ec En. unfold main. rewrite Ec, bind_ret_l. cbv beta iota.
  rewrite (bind_returned _ _ (a := Some client))
    by (now rewrite (connect_to_esxi_connected _ _ _ _ En)).
  rewrite (connect_to_esxi_connected _ _ _ _ En).
  unfold try_finally. rewrite close_session_run.
  now destruct (session client).
Qed.

(** ** The mapping builder on short listings *)

(** C6: a listing of no line or of one line gives the empty mapping:
    the loop runs over [output[1:]], which is empty, and nothing is
    raised, so [get_vm_mapping] returns the empty mapping. *)
Theorem short_listing_empty_mapping :
  forall (client : ssh_client) (output stderr_lines : list text),
    exec_command client esxcli_command = Reply output stderr_lines ->
    length output <= 1 ->
    parse_vm_mapping output = []
    /\ result (get_vm_mapping client) = Returned [].
Proof.
  intros client output err E Hlen.
  assert (Hp : parse_vm_mapping output = []).
  { destruct output as [|header [|line rest]]; simpl in Hlen;
      [reflexivity|reflexivity|lia]. }
  split; [exact Hp|].
  rewrite (get_vm_mapping_reply _ E). simpl. now rewrite Hp.
Qed.

Lemma short_listing_empty_mapping_witness :
  exec_command {| exec_command := fun _ => Reply [str "WorldID,Name"] [] |}
               esxcli_command
  = Reply [str "WorldID,Name"] []
  /\ length [str "WorldID,Name"] <= 1
  /\ (parse_vm_mapping [str "WorldID,Name"] = []
      /\ result (get_vm_mapping
                   {| exec_command := fun _ => Reply [str "WorldID,Name"] [] |})
         = Returned []).
Proof.
  split; [reflexivity|]. split; [simpl; lia|].
  apply (@short_listing_empty_mapping
           {| exec_command := fun _ => Reply [str "WorldID,Name"] [] |}
           [str "WorldID,Name"] []).
  - reflexivity.
  - simpl. lia.
Defined.

Example empty_listing : parse_vm_mapping [] = [].
Proof. reflexivity. Qed.

Example header_only_listing :
  parse_vm_mapping [str "1,name,cfg,uuid,77"] = [].
Proof. reflexivity. Qed.

(** ** No virtual machine running *)

(** C8: when the mapping built from the listing is empty, the run prints
    the message that no VM is running and goes straight to closing the
    session: the statistics command is not sent and no banner, heading,
    rule or row is printed. *)
Theorem empty_mapping_skips_render :
  forall (w : world) (hostname username password : text)
         (client : ssh_client) (output stderr_lines : list text),
    read_credentials_from_xml w = ret (hostname, username, password) ->
    connect w hostname username password = Connected client ->
    exec_command client esxcli_command = Reply output stderr_lines ->
    parse_vm_mapping output = [] ->
    main w
    = ([Print (str "Connecting to " ++ hostname ++ str "...");
        Print (str "Connected successfully!");
        Print (str "Retrieving VM names and IDs...");
        Exec esxcli_command]
         ++ warning stderr_lines
         ++ [Print (str "No VMs are currently running on the ESXi host.");
             Print (str "Closing SSH connection..."); Close;
             Print (str "SSH connection closed.")],
       Returned tt).
Proof.
  intros w h u p client output err Ec En Ex Hp.
  rewrite (main_connected _ Ec En).
  assert (Es : session client
               = ([Print (str "Retrieving VM names and IDs...");
                   Exec esxcli_command] ++ warning err
                    ++ [Print (str "No VMs are currently running on the ESXi host.")],
                  Returned tt)).
  { unfold session. rewrite (get_vm_mapping_reply _ Ex), Hp. reflexivity. }
  rewrite Es. simpl. rewrite <- app_assoc. reflexivity.
Qed.

Lemma empty_mapping_skips_render_witness :
  read_credentials_from_xml (host_of idle_client)
  = ret (str "esxi01", str "root", str "secret")
  /\ connect (host_of idle_client) (str "esxi01") (str "root") (str "secret")
     = Connected idle_client
  /\ exec_command idle_client esxcli_command = Reply [listing_header] []
  /\ parse_vm_mapping [listing_header] = []
  /\ main (host_of idle_client)
     = ([Print (str "Connecting to " ++ str "esxi01" ++ str "...");
         Print (str "Connected successfully!");
         Print (str "Retrieving VM names and IDs...");
         Exec esxcli_command]
          ++ warning []
          ++ [Print (str "No VMs are currently running on the ESXi host.");
              Print (str "Closing SSH connection..."); Close;
              Print (str "SSH connection closed.")],
        Returned tt).
Proof.
  split; [reflexivity|]. split; [reflexivity|]. split; [reflexivity|].
  split; [reflexivity|].
  apply (@empty_mapping_skips_render (host_of idle_client)
           (str "esxi01") (str "root") (str "secret") idle_client
           [listing_header] []);
    reflexivity.
Defined.

(** ** The session is released *)

Lemma open_app t1 t2 :
  open_throughout t1 -> open_throughout t2 -> open_throughout (t1 ++ t2).
Proof. unfold open_throughout. intros. now apply Forall_app. Qed.

Lemma open_bind {A B} (m : run A) (f : A -> run B) :
  open_throughout (trace m) ->
  (forall a, open_throughout (trace (f a))) ->
  open_throughout (trace (bind m f)).
Proof.
  intros Hm Hf. destruct m as [t [a|e]]; simpl in *.
  - specialize (Hf a). destruct (f a) as [t2 r]. simpl in *.
    now apply open_app.
  - exact Hm.
Qed.

Lemma open_print line : open_throughout (trace (print line)).
Proof. repeat constructor. discriminate. Qed.

Lemma open_ret {A} (a : A) : open_throughout (trace (ret a)).
Proof. constructor. Qed.

Lemma open_raise {A} (e : exn) : open_throughout (trace (@raise A e)).
Proof. constructor. Qed.

Create HintDb session.

#[local] Hint Resolve open_print open_ret open_raise : session.

Lemma open_execute_command client command :
  open_throughout (trace (execute_command client command)).
Proof.
  unfold execute_command. apply open_bind.
  - repeat constructor. discriminate.
  - intros _. destruct (exec_command client command) as [out err|e];
      [|auto with session].
    apply open_bind; [destruct err|]; auto with session.
Qed.

Lemma open_print_row w columns :
  open_throughout (trace (print_row w columns)).
Proof.
  unfold print_row. apply open_bind; [|auto with session].
  unfold header_format.
  destruct columns as [|c0 [|c1 [|c2 [|c3 [|c4 rest]]]]];
    auto with session.
Qed.

Lemma open_for_each {A} (xs : list A) (body : A -> run unit) :
  (forall x, open_throughout (trace (body x))) ->
  open_throughout (trace (for_each xs body)).
Proof.
  intros H. induction xs as [|x xs IH]; simpl; [constructor|].
  apply open_bind; auto.
Qed.

Lemma open_render vm_mapping relevant_lines :
  open_throughout (trace (render vm_mapping relevant_lines)).
Proof.
  unfold render. apply open_bind.
  - unfold py_max. destruct (map _ _); auto with session.
  - intros w. repeat (apply open_bind; [auto using open_print_row with session|intros _]).
    apply open_for_each. intros line. apply open_print_row.
Qed.

Lemma open_session client : open_throughout (trace (session client)).
Proof.
  unfold session. apply open_bind.
  - unfold get_vm_mapping. apply open_bind; [auto with session|intros _].
    apply open_bind; [apply open_execute_command|auto with session].
  - intros [|item m]; [auto with session|].
    apply open_bind.
    + unfold retrieve_memory_stats.
      apply open_bind; [auto with session|intros _].
      apply open_bind; [apply open_execute_command|auto with session].
    + intros out. apply open_render.
Qed.

(** C9: once the session is open, every run ends with the closing
    message, the close of the session and the closed message, and these
    come after everything the [try] block did, none of which closes the
    session; the run ends the way the [try] block ended, be it by
    falling through, by the early return or by an exception. *)
Theorem session_always_closed :
  forall (w : world) (hostname username password : text)
         (client : ssh_client),
    read_credentials_from_xml w = ret (hostname, username, password) ->
    connect w hostname username password = Connected client ->
    exists before,
      trace (main w)
      = before ++ [Print (str "Closing SSH connection..."); Close;
                   Print (str "SSH connection closed.")]
      /\ open_throughout before
      /\ result (main w) = result (session client).
Proof.
  intros w h u p client Ec En.
  rewrite (main_connected _ Ec En). simpl.
  exists (Print (str "Connecting to " ++ h ++ str "...")
            :: Print (str "Connected successfully!")
            :: trace (session client)).
  split; [reflexivity|]. split; [|reflexivity].
  repeat (constructor; [discriminate|]). apply open_session.
Qed.

Lemma session_always_closed_witness :
  read_credentials_from_xml (host_of busy_client)
  = ret (str "esxi01", str "root", str "secret")
  /\ connect (host_of busy_client) (str "esxi01") (str "root") (str "secret")
     = Connected busy_client
  /\ exists before,
      trace (main (host_of busy_client))
      = before ++ [Print (str "Closing SSH connection..."); Close;
                   Print (str "SSH connection closed.")]
      /\ open_throughout before
      /\ result (main (host_of busy_client)) = result (session busy_client).
Proof.
  split; [reflexivity|]. split; [reflexivity|].
  apply (@session_always_closed (host_of busy_client)
           (str "esxi01") (str "root") (str "secret") busy_client);
    reflexivity.
Defined.

Example closed_after_listing_fails :
  main (host_of (answering (ExecFails (SSHException (str "channel closed")))
                           (Reply [] [])))
  = ([Print (str "Connecting to esxi01...");
      Print (str "Connected successfully!");
      Print (str "Retrieving VM names and IDs...");
      Exec esxcli_command;
      Print (str "Closing SSH connection..."); Close;
      Print (str "SSH connection closed.")],
     Raised (SSHException (str "channel closed"))).
Proof. reflexivity. Qed.

Example closed_after_stats_fail :
  main (host_of (answering (Reply busy_listing [])
                           (ExecFails (SSHException (str "timeout")))))
  = ([Print (str "Connecting to esxi01...");
      Print (str "Connected successfully!");
      Print (str "Retrieving VM names and IDs...");
      Exec esxcli_command;
      Print (str "Retrieving memory stats for VMs backed by NVMe...");
      Exec memstats_command;
      Print (str "Closing SSH connection..."); Close;
      Print (str "SSH connection closed.")],
     Raised (SSHException (str "timeout"))).
Proof. reflexivity. Qed.

Example closed_after_table :
  main (host_of busy_client)
  = ([Print (str "Connecting to esxi01...");
      Print (str "Connected successfully!");
      Print (str "Retrieving VM names and IDs...");
      Exec esxcli_command;
      Print (str "Retrieving memory stats for VMs backed by NVMe...");
      Exec memstats_command;
      Print (str "Memory stats:");
      Print (str "VM Name  MemSize (MB)     Active (MB)      Tier0 Consumed (MB)   Tier1 Consumed (MB) ");
      Print (repeat "-"%char 95);
      Print (str "web01  2048             512              100                   20                  ");
      Print (str "db01   4096             1024             200                   40                  ");
      Print (str "Closing SSH connection..."); Close;
      Print (str "SSH connection closed.")],
     Returned tt).
Proof. reflexivity. Qed.

(** ** The mapping builder *)

Lemma eqb_refl (a : text) : PyStr.eqb a a = true.
Proof. now apply eqb_eq. Qed.

Lemma dict_get_set_same (d : dict) (k v : text) :
  dict_get (dict_set d k v) k = Some v.
Proof.
  induction d as [|[k' v'] d IH]; simpl.
  - now rewrite eqb_refl.
  - destruct (PyStr.eqb k' k) eqn:E; simpl; rewrite E; auto.
Qed.

Lemma dict_get_set_other (d : dict) (k k' v : text) :
  k <> k' -> dict_get (dict_set d k v) k' = dict_get d k'.
Proof.
  intros Hne. induction d as [|[k0 v0] d IH]; simpl.
  - apply eqb_neq in Hne. now rewrite Hne.
  - destruct (PyStr.eqb k0 k) eqn:E; simpl.
    + apply eqb_eq in E. subst k0. apply eqb_neq in Hne. now rewrite Hne.
    + now rewrite IH.
Qed.

Lemma keys_dict_set (d : dict) (k v : text) :
  keys (dict_set d k v)
  = match dict_get d k with Some _ => keys d | None => keys d ++ [k] end.
Proof.
  induction d as [|[k' v'] d IH]; simpl; [reflexivity|].
  destruct (PyStr.eqb k' k) eqn:E; simpl; [reflexivity|].
  rewrite IH. now destruct (dict_get d k).
Qed.

Lemma dict_get_None (d : dict) (k : text) :
  dict_get d k = None <-> ~ In k (keys d).
Proof.
  induction d as [|[k' v'] d IH]; simpl; [tauto|].
  destruct (PyStr.eqb k' k) eqn:E.
  - apply eqb_eq in E. split; [discriminate|]. intros H. contradiction H.
    now left.
  - apply eqb_neq in E. rewrite IH. tauto.
Qed.

Lemma dict_set_NoDup (d : dict) (k v : text) :
  NoDup (keys d) -> NoDup (keys (dict_set d k v)).
Proof.
  intros H. rewrite keys_dict_set.
  destruct (dict_get d k) eqn:E; [exact H|].
  apply dict_get_None in E.
  apply NoDup_rev in H. rewrite <- (rev_involutive (keys d ++ [k])).
  apply NoDup_rev. rewrite rev_app_distr. simpl. constructor; [|exact H].
  now rewrite <- in_rev.
Qed.

Lemma dict_get_In (d : dict) (k v : text) :
  NoDup (keys d) -> (dict_get d k = Some v <-> In (k, v) (items d)).
Proof.
  unfold items. induction d as [|[k' v'] d IH]; simpl; intros Hnd.
  - split; [discriminate|tauto].
  - inversion Hnd as [|? ? Hk Hd]; subst.
    destruct (PyStr.eqb k' k) eqn:E.
    + apply eqb_eq in E. subst k'. split.
      * intros H. injection H as ->. now left.
      * intros [H|H]; [congruence|].
        contradiction Hk. change k with (fst (k, v)). now apply in_map.
    + apply eqb_neq in E. rewrite (IH Hd). split; [tauto|].
      intros [H|H]; [congruence|exact H].
Qed.

Lemma add_vm_entry (vm_mapping : dict) (line : text) :
  add_vm vm_mapping line
  = match row_entry line with
    | Some (vm_id, vm_name) => dict_set vm_mapping vm_id vm_name
    | None => vm_mapping
    end.
Proof.
  unfold add_vm, row_entry.
  now destruct (5 <=? length (PyStr.split_sep "," (PyStr.strip line))).
Qed.

Lemma fold_add_vm_NoDup (lines : list text) (d : dict) :
  NoDup (keys d) -> NoDup (keys (fold_left add_vm lines d)).
Proof.
  revert d. induction lines as [|line lines IH]; intros d H; simpl;
    [exact H|].
  apply IH. rewrite add_vm_entry.
  destruct (row_entry line) as [[vm_id vm_name]|]; [|exact H].
  now apply dict_set_NoDup.
Qed.

Lemma parse_vm_mapping_NoDup (output : list text) :
  NoDup (keys (parse_vm_mapping output)).
Proof. apply fold_add_vm_NoDup. constructor. Qed.

Lemma fold_add_vm_untouched (lines : list text) (d : dict) (vm_id : text) :
  (forall line vm_name,
     In line lines -> row_entry line <> Some (vm_id, vm_name)) ->
  dict_get (fold_left add_vm lines d) vm_id = dict_get d vm_id.
Proof.
  revert d. induction lines as [|line lines IH]; intros d H; simpl;
    [reflexivity|].
  rewrite IH by (intros l n Hin; apply H; now right).
  rewrite add_vm_entry.
  destruct (row_entry line) as [[k v]|] eqn:E; [|reflexivity].
  apply dict_get_set_other. intros ->.
  apply (H line v); [now left|exact E].
Qed.

(** C5: when two lines below the header give the same identifier with
    different names, and the later of them is the last line to give that
    identifier, the mapping holds the later line's name for it and no
    other name. *)
Theorem last_write_wins :
  forall (header : text) (earlier between later : list text)
         (first second vm_id first_name second_name : text),
    row_entry first = Some (vm_id, first_name) ->
    row_entry second = Some (vm_id, second_name) ->
    first_name <> second_name ->
    (forall line vm_name,
       In line later -> row_entry line <> Some (vm_id, vm_name)) ->
    let vm_mapping :=
      parse_vm_mapping
        (header :: earlier ++ first :: between ++ second :: later) in
    dict_get vm_mapping vm_id = Some second_name
    /\ (forall vm_name,
          In (vm_id, vm_name) (items vm_mapping) <-> vm_name = second_name)
    /\ ~ In (vm_id, first_name) (items vm_mapping).
Proof.
  intros header earlier between later first second vm_id n1 n2
         E1 E2 Hne Hlater vm_mapping.
  assert (Hget : dict_get vm_mapping vm_id = Some n2).
  { unfold vm_mapping, parse_vm_mapping. simpl.
    rewrite fold_left_app. simpl. rewrite fold_left_app. simpl.
    rewrite fold_add_vm_untouched by exact Hlater.
    rewrite (add_vm_entry _ second), E2. apply dict_get_set_same. }
  assert (Hin : forall vm_name,
             In (vm_id, vm_name) (items vm_mapping) <-> vm_name = n2).
  { intros vm_name.
    rewrite <- dict_get_In by apply parse_vm_mapping_NoDup.
    rewrite Hget. split; congruence. }
  split; [exact Hget|]. split; [exact Hin|].
  intros H. apply Hin in H. contradiction.
Qed.

Lemma last_write_wins_witness :
  row_entry (str "1,old,cfg,uuid,100") = Some (str "100", str "old")
  /\ row_entry (str "2,new,cfg,uuid,100") = Some (str "100", str "new")
  /\ str "old" <> str "new"
  /\ (forall line vm_name,
        In line [str "3,db01,cfg,uuid,200"] ->
        row_entry line <> Some (str "100", vm_name))
  /\ (let vm_mapping :=
        parse_vm_mapping
          (listing_header
             :: [] ++ str "1,old,cfg,uuid,100"
             :: [str "short,row"] ++ str "2,new,cfg,uuid,100"
             :: [str "3,db01,cfg,uuid,200"]) in
      dict_get vm_mapping (str "100") = Some (str "new")
      /\ (forall vm_name,
            In (str "100", vm_name) (items vm_mapping)
            <-> vm_name = str "new")
      /\ ~ In (str "100", str "old") (items vm_mapping)).
Proof.
  assert (Hlater : forall line vm_name,
             In line [str "3,db01,cfg,uuid,200"] ->
             row_entry line <> Some (str "100", vm_name)).
  { intros line vm_name [<-|[]]. vm_compute. discriminate. }
  split; [reflexivity|]. split; [reflexivity|].
  split; [vm_compute; discriminate|]. split; [exact Hlater|].
  apply (@last_write_wins listing_header [] [str "short,row"]
           [str "3,db01,cfg,uuid,200"]
           (str "1,old,cfg,uuid,100") (str "2,new,cfg,uuid,100")
           (str "100") (str "old") (str "new")).
  - reflexivity.
  - reflexivity.
  - vm_compute. discriminate.
  - exact Hlater.
Defined.

Example collision_keeps_first_place :
  parse_vm_mapping
    [listing_header; str "1,old,cfg,uuid,100"; str "3,db01,cfg,uuid,200";
     str "2,new,cfg,uuid,100"]
  = [(str "100", str "new"); (str "200", str "db01")].
Proof. reflexivity. Qed.

(** ** Replacing a token *)

Lemma startswith_app (p s : text) :
  PyStr.startswith p s = true <-> exists rest, s = p ++ rest.
Proof.
  revert s. induction p as [|a p IH]; intros s; simpl.
  - split; [eauto|reflexivity].
  - destruct s as [|b s].
    + split; [discriminate|]. intros (rest & H). discriminate.
    + rewrite andb_true_iff, Ascii.eqb_eq, IH. split.
      * intros (-> & rest & ->). eauto.
      * intros (rest & H). injection H as -> ->. eauto.
Qed.

Lemma replace_scan_skip (old new p s : text) :
  PyStr.replace_scan old new (length p) (p ++ s)
  = PyStr.replace_scan old new 0 s.
Proof.
  induction p as [|c p IH]; simpl; [|exact IH].
  destruct s; reflexivity.
Qed.

Lemma replace_scan_hit (old new s : text) :
  old <> [] ->
  PyStr.replace_scan old new 0 (old ++ s)
  = new ++ PyStr.replace_scan old new 0 s.
Proof.
  intros Hne. destruct old as [|a old]; [congruence|].
  assert (E : PyStr.startswith (a :: old) ((a :: old) ++ s) = true)
    by (apply startswith_app; eauto).
  change ((a :: old) ++ s) with (a :: old ++ s) in *.
  cbn [PyStr.replace_scan]. rewrite E. f_equal.
  cbn [length]. rewrite Nat.sub_1_r. cbn [Nat.pred].
  apply replace_scan_skip.
Qed.

Lemma replace_scan_miss (old new : text) (c : ascii) (s : text) :
  PyStr.startswith old (c :: s) = false ->
  PyStr.replace_scan old new 0 (c :: s)
  = c :: PyStr.replace_scan old new 0 s.
Proof. intros E. cbn [PyStr.replace_scan]. now rewrite E. Qed.

Lemma replace_scan_Rewrites (old new : text) :
  old <> [] ->
  forall n s, length s <= n ->
              Rewrites old new s (PyStr.replace_scan old new 0 s).
Proof.
  intros Hne n. induction n as [|n IH]; intros s Hlen.
  - destruct s; [constructor|simpl in Hlen; lia].
  - destruct s as [|c s]; [constructor|].
    destruct (PyStr.startswith old (c :: s)) eqn:E.
    + apply startswith_app in E as (rest & E). rewrite E.
      rewrite replace_scan_hit by exact Hne. constructor. apply IH.
      assert (L : length (c :: s) = length old + length rest)
        by (rewrite E; apply length_app).
      destruct old; [congruence|]. simpl in *. lia.
    + rewrite replace_scan_miss by exact E. constructor; [exact E|].
      apply IH. simpl in Hlen. lia.
Qed.

Lemma Rewrites_replace (old new s t : text) :
  old <> [] -> (Rewrites old new s t <-> t = PyStr.replace old new s).
Proof.
  intros Hne.
  assert (Er : forall x, PyStr.replace old new x
                         = PyStr.replace_scan old new 0 x)
    by (destruct old; [congruence|reflexivity]).
  rewrite Er. split.
  - induction 1 as [|s t _ IH|c s t E _ IH].
    + reflexivity.
    + rewrite replace_scan_hit by exact Hne. now rewrite IH.
    + rewrite replace_scan_miss by exact E. now rewrite IH.
  - intros ->. now apply replace_scan_Rewrites with (n := length s).
Qed.

Lemma replace_absent (old new s : text) :
  PyStr.contains old s = false -> PyStr.replace old new s = s.
Proof.
  destruct old as [|a old].
  - destruct s; discriminate.
  - unfold PyStr.replace. induction s as [|c s IH]; [reflexivity|].
    intros H. cbn [PyStr.contains] in H.
    apply orb_false_iff in H as [E H].
    rewrite replace_scan_miss by exact E. now rewrite IH.
Qed.

Lemma token_not_empty (vm_id : text) : str "vm." ++ vm_id <> [].
Proof. discriminate. Qed.

(** ** Stage 1: substitution *)

Lemma retrieve_memory_stats_reply client vm_mapping stdout_lines stderr_lines :
  exec_command client memstats_command = Reply stdout_lines stderr_lines ->
  retrieve_memory_stats client vm_mapping
  = (Print (str "Retrieving memory stats for VMs backed by NVMe...")
       :: Exec memstats_command :: warning stderr_lines,
     Returned (replace_output stdout_lines vm_mapping)).
Proof.
  intros E. unfold retrieve_memory_stats.
  rewrite (execute_command_reply _ _ E).
  unfold bind, print, emit, ret. simpl. now rewrite app_nil_r.
Qed.

Lemma replace_output_map (memstats_output : list text) (vm_mapping : dict) :
  replace_output memstats_output vm_mapping
  = map (fun line => PyStr.strip (replace_ids vm_mapping line))
        memstats_output.
Proof. unfold replace_output. now rewrite fold_left_append_map. Qed.

Lemma fold_replace_Passes (its : list (text * text)) (line rewritten : text) :
  Passes its line rewritten <->
  rewritten
  = fold_left
      (fun line item => PyStr.replace (str "vm." ++ fst item) (snd item) line)
      its line.
Proof.
  split.
  - induction 1 as [|vm_id vm_name rest line line' line'' Hr _ IH];
      [reflexivity|].
    apply Rewrites_replace in Hr; [|apply token_not_empty].
    cbn [fold_left fst snd]. now rewrite <- Hr.
  - intros ->. revert line.
    induction its as [|[vm_id vm_name] rest IH]; intros line.
    + constructor.
    + cbn [fold_left fst snd]. econstructor; [|apply IH].
      apply Rewrites_replace; [apply token_not_empty|reflexivity].
Qed.

(** Every line goes through one pass per item of the mapping, in the
    order of the items, and is trimmed. *)
Lemma replace_output_Passes (memstats_output : list text) (vm_mapping : dict) :
  Forall2
    (fun line replaced =>
       exists rewritten,
         Passes (items vm_mapping) line rewritten
         /\ replaced = PyStr.strip rewritten)
    memstats_output (replace_output memstats_output vm_mapping).
Proof.
  rewrite replace_output_map.
  induction memstats_output as [|line out IH]; simpl; constructor;
    [|exact IH].
  exists (replace_ids vm_mapping line). split; [|reflexivity].
  now apply fold_replace_Passes.
Qed.

(** C1, which the code breaks: on a host where the listing gives
    identifier 1 before identifier 10, the passes run in that order, so
    the pass for [vm.1] rewrites the head of [vm.10] and the row of VM
    10 is printed under [web010], the name of no VM, where the passes
    by descending identifier length print it under [db01]. *)
Lemma prefix_id_shadowed :
  parse_vm_mapping prefix_listing
  = [(str "1", str "web01"); (str "10", str "db01")]
  /\ replace_output prefix_stats (parse_vm_mapping prefix_listing)
     = [str "web01 2048 512 100 20"; str "web010 4096 1024 200 40"]
  /\ spec_replace_output prefix_stats (parse_vm_mapping prefix_listing)
     = [str "web01 2048 512 100 20"; str "db01 4096 1024 200 40"]
  /\ replace_output prefix_stats (parse_vm_mapping prefix_listing)
     <> spec_replace_output prefix_stats (parse_vm_mapping prefix_listing)
  /\ ~ In (str "web010") (values (parse_vm_mapping prefix_listing))
  /\ main (host_of prefix_client)
     = ([Print (str "Connecting to esxi01...");
         Print (str "Connected successfully!");
         Print (str "Retrieving VM names and IDs...");
         Exec esxcli_command;
         Print (str "Retrieving memory stats for VMs backed by NVMe...");
         Exec memstats_command;
         Print (str "Memory stats:");
         Print (table_row 5 (str "VM Name") (str "MemSize (MB)")
                  (str "Active (MB)") (str "Tier0 Consumed (MB)")
                  (str "Tier1 Consumed (MB)"));
         Print (repeat "-"%char 95);
         Print (table_row 5 (str "web01") (str "2048") (str "512")
                  (str "100") (str "20"));
         Print (table_row 5 (str "web010") (str "4096") (str "1024")
                  (str "200") (str "40"));
         Print (str "Closing SSH connection..."); Close;
         Print (str "SSH connection closed.")],
        Returned tt).
Proof.
  split; [reflexivity|]. split; [reflexivity|]. split; [reflexivity|].
  split; [vm_compute; discriminate|].
  split; [vm_compute; intros [H|[H|[]]]; discriminate|].
  reflexivity.
Qed.

Example stage1_scenario :
  replace_output busy_stats (parse_vm_mapping busy_listing)
  = [str "web01 2048 512 100 20"; str "db01 4096 1024 200 40";
     str "garbage line"].
Proof. reflexivity. Qed.

Lemma replace_ids_absent (its : list (text * text)) (line : text) :
  (forall vm_id vm_name,
     In (vm_id, vm_name) its ->
     PyStr.contains (str "vm." ++ vm_id) line = false) ->
  replace_ids its line = line.
Proof.
  unfold replace_ids, items.
  induction its as [|[vm_id vm_name] its IH]; intros H; [reflexivity|].
  cbn [fold_left fst snd].
  rewrite replace_absent by (apply (H vm_id vm_name); now left).
  apply IH. intros k v Hin. apply (H k v). now right.
Qed.

(** C2, as the code has it: when no line contains a token [vm.<id>] for
    an identifier of the mapping, stage 1 changes no line but for the
    trimming of its surrounding whitespace; the output is the input,
    line for line, when the lines have none. *)
Theorem stage1_without_tokens :
  forall (memstats_output : list text) (vm_mapping : dict),
    (forall line vm_id vm_name,
       In line memstats_output -> In (vm_id, vm_name) (items vm_mapping) ->
       PyStr.contains (str "vm." ++ vm_id) line = false) ->
    replace_output memstats_output vm_mapping
    = map PyStr.strip memstats_output
    /\ ((forall line, In line memstats_output -> PyStr.strip line = line) ->
        replace_output memstats_output vm_mapping = memstats_output).
Proof.
  intros out m H.
  assert (E : replace_output out m = map PyStr.strip out).
  { rewrite replace_output_map. apply map_ext_in. intros line Hin.
    rewrite replace_ids_absent; [reflexivity|].
    intros k v Hkv. now apply (H line k v). }
  split; [exact E|]. intros Htrim. rewrite E.
  rewrite <- (map_id out) at 2. now apply map_ext_in.
Qed.

Lemma stage1_without_tokens_witness :
  (forall line vm_id vm_name,
     In line [str "total 100"] ->
     In (vm_id, vm_name) (items [(str "100", str "web01")]) ->
     PyStr.contains (str "vm." ++ vm_id) line = false)
  /\ (forall line, In line [str "total 100"] -> PyStr.strip line = line)
  /\ replace_output [str "total 100"] [(str "100", str "web01")]
     = map PyStr.strip [str "total 100"]
  /\ replace_output [str "total 100"] [(str "100", str "web01")]
     = [str "total 100"].
Proof.
  assert (H : forall line vm_id vm_name,
             In line [str "total 100"] ->
             In (vm_id, vm_name) (items [(str "100", str "web01")]) ->
             PyStr.contains (str "vm." ++ vm_id) line = false).
  { intros line vm_id vm_name [<-|[]] [E|[]].
    injection E as <- _. reflexivity. }
  assert (T : forall line,
             In line [str "total 100"] -> PyStr.strip line = line).
  { intros line [<-|[]]. reflexivity. }
  destruct (@stage1_without_tokens [str "total 100"]
              [(str "100", str "web01")] H) as [Hmap Hsame].
  split; [exact H|]. split; [exact T|]. split; [exact Hmap|].
  apply Hsame. exact T.
Defined.

(** C2 fails as stated: a line that holds no token but ends in a newline
    comes out of stage 1 without it. *)
Lemma untrimmed_line_changed :
  (forall line vm_id vm_name,
     In line [str "total 100" ++ [newline]] ->
     In (vm_id, vm_name) (items [(str "100", str "web01")]) ->
     PyStr.contains (str "vm." ++ vm_id) line = false)
  /\ replace_output [str "total 100" ++ [newline]] [(str "100", str "web01")]
     = [str "total 100"]
  /\ replace_output [str "total 100" ++ [newline]] [(str "100", str "web01")]
     <> [str "total 100" ++ [newline]].
Proof.
  split.
  - intros line vm_id vm_name [<-|[]] [E|[]].
    injection E as <- _. reflexivity.
  - split; [reflexivity|]. vm_compute. discriminate.
Qed.

(** * Further properties of the code *)

(** ** Trimming *)

Lemma lstrip_blank (w s : text) :
  Forall (fun c => in_class Space c = true) w ->
  PyStr.lstrip (w ++ s) = PyStr.lstrip s.
Proof.
  induction 1 as [|c w Hc _ IH]; simpl; [reflexivity|].
  simpl in Hc. now rewrite Hc.
Qed.

Lemma lstrip_fixed (s : text) :
  (forall c p, s = c :: p -> PyStr.isspace c = false) -> PyStr.lstrip s = s.
Proof.
  destruct s as [|c s]; [reflexivity|]. intros H. simpl.
  now rewrite (H c s eq_refl).
Qed.

Lemma lstrip_app (s t : text) :
  PyStr.lstrip (s ++ t)
  = match PyStr.lstrip s with
    | [] => PyStr.lstrip t
    | _ :: _ => PyStr.lstrip s ++ t
    end.
Proof.
  induction s as [|c s IH]; simpl.
  - now destruct (PyStr.lstrip t).
  - destruct (PyStr.isspace c); [exact IH|reflexivity].
Qed.

Lemma rstrip_blank (s w : text) :
  Forall (fun c => in_class Space c = true) w ->
  PyStr.rstrip (s ++ w) = PyStr.rstrip s.
Proof.
  intros H. unfold PyStr.rstrip. rewrite rev_app_distr.
  rewrite lstrip_blank; [reflexivity|]. now apply Forall_rev.
Qed.

Lemma strip_idempotent (s : text) :
  PyStr.strip (PyStr.strip s) = PyStr.strip s.
Proof.
  unfold PyStr.strip at 1.
  rewrite lstrip_fixed by (intros c p E; eapply strip_first; exact E).
  unfold PyStr.rstrip.
  rewrite lstrip_fixed by (intros c p E; eapply strip_last; exact E).
  apply rev_involutive.
Qed.

Lemma strip_blank (w1 s w2 : text) :
  Forall (fun c => in_class Space c = true) w1 ->
  Forall (fun c => in_class Space c = true) w2 ->
  PyStr.strip (w1 ++ s ++ w2) = PyStr.strip s.
Proof.
  intros H1 H2. unfold PyStr.strip.
  rewrite lstrip_blank by exact H1. rewrite lstrip_app.
  destruct (PyStr.lstrip s) as [|c rest] eqn:E.
  - assert (Hw : PyStr.lstrip w2 = []).
    { rewrite <- (app_nil_r w2). now rewrite lstrip_blank. }
    now rewrite Hw.
  - now apply rstrip_blank.
Qed.

Lemma In_lstrip (c : ascii) (s : text) : In c (PyStr.lstrip s) -> In c s.
Proof.
  induction s as [|x s IH]; simpl; [tauto|].
  destruct (PyStr.isspace x); [intros H; right; now apply IH|exact (fun H => H)].
Qed.

Lemma In_strip (c : ascii) (s : text) : In c (PyStr.strip s) -> In c s.
Proof.
  unfold PyStr.strip, PyStr.rstrip. intros H.
  apply in_rev, In_lstrip, in_rev in H. now apply In_lstrip.
Qed.

Lemma count_lstrip (c : ascii) (s : text) :
  PyStr.isspace c = false ->
  count_occ ascii_dec (PyStr.lstrip s) c = count_occ ascii_dec s c.
Proof.
  intros Hc. induction s as [|x s IH]; simpl; [reflexivity|].
  destruct (PyStr.isspace x) eqn:Ex; [|reflexivity].
  destruct (ascii_dec x c) as [->|_]; [congruence|exact IH].
Qed.

Lemma count_strip (c : ascii) (s : text) :
  PyStr.isspace c = false ->
  count_occ ascii_dec (PyStr.strip s) c = count_occ ascii_dec s c.
Proof.
  intros Hc. unfold PyStr.strip, PyStr.rstrip.
  rewrite count_occ_rev, count_lstrip, count_occ_rev by exact Hc.
  now apply count_lstrip.
Qed.

(** ** Comma-separated fields *)

Lemma split_sep_length (sep : ascii) (s : text) :
  length (PyStr.split_sep sep s) = S (count_occ ascii_dec s sep).
Proof.
  induction s as [|c s IH]; simpl; [reflexivity|].
  destruct (Ascii.eqb c sep) eqn:E.
  - apply Ascii.eqb_eq in E. subst c. simpl. rewrite IH.
    now destruct (ascii_dec sep sep).
  - apply Ascii.eqb_neq in E.
    destruct (ascii_dec c sep) as [->|_]; [congruence|].
    destruct (PyStr.split_sep sep s); simpl in *; [discriminate|exact IH].
Qed.

Lemma split_sep_fields (sep : ascii) (s : text) :
  Forall (fun field => ~ In sep field) (PyStr.split_sep sep s).
Proof.
  induction s as [|c s IH]; simpl.
  - repeat constructor. tauto.
  - destruct (Ascii.eqb c sep) eqn:E.
    + constructor; [tauto|exact IH].
    + apply Ascii.eqb_neq in E.
      destruct (PyStr.split_sep sep s) as [|field fields].
      * repeat constructor. intros [H|[]]. congruence.
      * inversion IH as [|? ? Hf Hfs]; subst. constructor; [|exact Hfs].
        intros [H|H]; [congruence|tauto].
Qed.

Lemma row_entry_commas (line : text) :
  row_entry line = None <-> commas line < 4.
Proof.
  unfold row_entry, commas.
  rewrite split_sep_length, count_strip by reflexivity.
  destruct (5 <=? S (count_occ ascii_dec line ","%char)) eqn:E.
  - apply Nat.leb_le in E. split; [discriminate|lia].
  - apply Nat.leb_gt in E. split; [lia|reflexivity].
Qed.

(** X1: a listing line with fewer than four commas (fewer than five
    fields) leaves the mapping as it was. *)
Theorem short_row_skipped :
  forall (vm_mapping : dict) (line : text),
    commas line < 4 -> add_vm vm_mapping line = vm_mapping.
Proof.
  intros d line H. rewrite add_vm_entry.
  apply row_entry_commas in H. now rewrite H.
Qed.

Lemma short_row_skipped_witness :
  commas (str "2100,web01,/vmfs/web01.vmx,100") < 4
  /\ add_vm [(str "7", str "db01")] (str "2100,web01,/vmfs/web01.vmx,100")
     = [(str "7", str "db01")].
Proof.
  split; [vm_compute; lia|].
  apply (@short_row_skipped [(str "7", str "db01")]
           (str "2100,web01,/vmfs/web01.vmx,100")).
  vm_compute. lia.
Defined.

Lemma dict_set_not_empty (d : dict) (k v : text) : dict_set d k v <> [].
Proof.
  destruct d as [|[k' v'] d]; simpl; [discriminate|].
  destruct (PyStr.eqb k' k); discriminate.
Qed.

Lemma fold_add_vm_not_empty (lines : list text) (d : dict) :
  d <> [] -> fold_left add_vm lines d <> [].
Proof.
  revert d. induction lines as [|line lines IH]; intros d H; simpl;
    [exact H|].
  apply IH. rewrite add_vm_entry.
  destruct (row_entry line) as [[k v]|]; [apply dict_set_not_empty|exact H].
Qed.

Lemma mapping_empty_iff :
  forall output : list text,
    parse_vm_mapping output = []
    <-> Forall (fun line => commas line < 4) (tl output).
Proof.
  intros output. unfold parse_vm_mapping.
  generalize (tl output) as lines. clear output.
  induction lines as [|line lines IH]; simpl.
  - split; [constructor|reflexivity].
  - rewrite add_vm_entry. destruct (row_entry line) as [[k v]|] eqn:E.
    + split.
      * intros H. exfalso. revert H. apply fold_add_vm_not_empty.
        discriminate.
      * intros H. inversion H as [|? ? Hc _]; subst.
        apply row_entry_commas in Hc. congruence.
    + rewrite IH. split.
      * intros H. constructor; [now apply row_entry_commas|exact H].
      * intros H. now inversion H.
Qed.

(** ** What the mapping holds *)

Lemma dict_get_fold_add_vm (lines : list text) (vm_id vm_name : text) :
  dict_get (fold_left add_vm lines []) vm_id = Some vm_name
  <-> exists earlier line later,
        lines = earlier ++ line :: later
        /\ row_entry line = Some (vm_id, vm_name)
        /\ forall l n, In l later -> row_entry l <> Some (vm_id, n).
Proof.
  split.
  - induction lines as [|x xs IH] using rev_ind; [discriminate|].
    rewrite fold_left_app. simpl. rewrite add_vm_entry.
    destruct (row_entry x) as [[k v]|] eqn:E.
    + destruct (list_eq_dec ascii_dec k vm_id) as [->|Hne].
      * rewrite dict_get_set_same. intros H. injection H as ->.
        exists xs, x, []. split; [reflexivity|]. split; [exact E|].
        intros l n [].
      * rewrite dict_get_set_other by exact Hne. intros H.
        destruct (IH H) as (earlier & line & later & -> & El & Hl).
        exists earlier, line, (later ++ [x]).
        split; [now rewrite <- app_assoc|]. split; [exact El|].
        intros l n Hin. apply in_app_or in Hin as [Hin|[<-|[]]];
          [now apply Hl|congruence].
    + intros H.
      destruct (IH H) as (earlier & line & later & -> & El & Hl).
      exists earlier, line, (later ++ [x]).
      split; [now rewrite <- app_assoc|]. split; [exact El|].
      intros l n Hin. apply in_app_or in Hin as [Hin|[<-|[]]];
        [now apply Hl|congruence].
  - intros (earlier & line & later & -> & El & Hl).
    rewrite fold_left_app. simpl.
    rewrite fold_add_vm_untouched by exact Hl.
    rewrite add_vm_entry, El. apply dict_get_set_same.
Qed.

Lemma dict_get_fold_add_vm_None (lines : list text) (vm_id : text) :
  dict_get (fold_left add_vm lines []) vm_id = None
  <-> forall l n, In l lines -> row_entry l <> Some (vm_id, n).
Proof.
  split.
  - intros H l n Hin E.
    apply in_split in Hin as (l1 & l2 & ->).
    assert (Hs : exists v, dict_get (fold_left add_vm (l1 ++ l :: l2) [])
                                    vm_id = Some v).
    { clear H. revert l1 l n E.
      induction l2 as [|x xs IH] using rev_ind; intros l1 l n E.
      - rewrite fold_left_app. simpl. rewrite add_vm_entry, E.
        rewrite dict_get_set_same. eauto.
      - change (l1 ++ l :: xs ++ [x]) with (l1 ++ (l :: xs) ++ [x]).
        rewrite app_assoc, fold_left_app. simpl. rewrite add_vm_entry.
        destruct (row_entry x) as [[k v]|]; [|now apply (IH l1 l n)].
        destruct (list_eq_dec ascii_dec k vm_id) as [->|Hne].
        + rewrite dict_get_set_same. eauto.
        + rewrite dict_get_set_other by exact Hne. now apply (IH l1 l n). }
    destruct Hs as (v & Hv). congruence.
  - intros H. rewrite fold_add_vm_untouched by exact H. reflexivity.
Qed.

(** X3: the mapping holds [name] for [id] exactly when some line below
    the header gives [(id, name)] and no line after it gives [id]; it
    has no entry for [id] exactly when no line below the header gives
    [id]. *)
Theorem lookup_is_last_row :
  forall (output : list text) (vm_id : text),
    (forall vm_name,
       dict_get (parse_vm_mapping output) vm_id = Some vm_name
       <-> exists earlier line later,
             tl output = earlier ++ line :: later
             /\ row_entry line = Some (vm_id, vm_name)
             /\ forall l n, In l later -> row_entry l <> Some (vm_id, n))
    /\ (dict_get (parse_vm_mapping output) vm_id = None
        <-> forall l n, In l (tl output) -> row_entry l <> Some (vm_id, n)).
Proof.
  intros output vm_id. unfold parse_vm_mapping. split.
  - intros vm_name. apply dict_get_fold_add_vm.
  - apply dict_get_fold_add_vm_None.
Qed.

Lemma row_entry_clean (line vm_id vm_name : text) :
  row_entry line = Some (vm_id, vm_name) ->
  PyStr.strip vm_id = vm_id /\ PyStr.strip vm_name = vm_name
  /\ ~ In ","%char vm_id /\ ~ In ","%char vm_name.
Proof.
  unfold row_entry.
  set (parts := PyStr.split_sep ","%char (PyStr.strip line)).
  destruct (5 <=? length parts) eqn:E; [|discriminate].
  apply Nat.leb_le in E. intros H. injection H as <- <-.
  assert (Hf : forall i, i < length parts -> ~ In ","%char (nth i parts [])).
  { intros i Hi. pose proof (split_sep_fields ","%char (PyStr.strip line)) as F.
    rewrite Forall_forall in F. apply F. now apply nth_In. }
  split; [apply strip_idempotent|]. split; [apply strip_idempotent|].
  split; intros H; apply In_strip in H; revert H; apply Hf; lia.
Qed.

(** X4: every identifier and every name of the mapping is free of
    surrounding whitespace and of commas. *)
Theorem mapping_entries_clean :
  forall (output : list text) (vm_id vm_name : text),
    In (vm_id, vm_name) (items (parse_vm_mapping output)) ->
    PyStr.strip vm_id = vm_id /\ PyStr.strip vm_name = vm_name
    /\ ~ In ","%char vm_id /\ ~ In ","%char vm_name.
Proof.
  intros output vm_id vm_name H.
  apply dict_get_In in H; [|apply parse_vm_mapping_NoDup].
  apply dict_get_fold_add_vm in H as (_ & line & _ & _ & E & _).
  eapply row_entry_clean. exact E.
Qed.

Lemma mapping_entries_clean_witness :
  In (str "100", str "web01")
     (items (parse_vm_mapping
               [listing_header; str " 2100 , web01 ,cfg,uuid, 100 " ++ [newline]]))
  /\ (PyStr.strip (str "100") = str "100"
      /\ PyStr.strip (str "web01") = str "web01"
      /\ ~ In ","%char (str "100") /\ ~ In ","%char (str "web01")).
Proof.
  split; [vm_compute; left; reflexivity|].
  apply (@mapping_entries_clean
           [listing_header; str " 2100 , web01 ,cfg,uuid, 100 " ++ [newline]]
           (str "100") (str "web01")).
  vm_compute. left. reflexivity.
Defined.

Lemma keys_fold_add_vm (lines : list text) (d : dict) :
  exists suffix, keys (fold_left add_vm lines d) = keys d ++ suffix.
Proof.
  revert d. induction lines as [|line lines IH]; intros d; simpl.
  - exists []. now rewrite app_nil_r.
  - destruct (IH (add_vm d line)) as (suffix & ->).
    rewrite add_vm_entry. destruct (row_entry line) as [[k v]|];
      [|now exists suffix].
    rewrite keys_dict_set. destruct (dict_get d k).
    + now exists suffix.
    + exists (k :: suffix). now rewrite <- app_assoc.
Qed.

(** X5: lines added to the end of a listing never move or remove an
    identifier that the mapping already has: the identifiers of the
    longer listing are those of the shorter one, in the same order,
    followed by the new ones, and no identifier comes twice. *)
Theorem keys_only_grow :
  forall (header : text) (lines more : list text),
    exists suffix,
      keys (parse_vm_mapping (header :: lines ++ more))
      = keys (parse_vm_mapping (header :: lines)) ++ suffix
      /\ NoDup (keys (parse_vm_mapping (header :: lines ++ more))).
Proof.
  intros header lines more. unfold parse_vm_mapping. simpl.
  rewrite fold_left_app.
  destruct (keys_fold_add_vm more (fold_left add_vm lines []))
    as (suffix & E).
  exists suffix. split; [exact E|].
  apply fold_add_vm_NoDup, fold_add_vm_NoDup. constructor.
Qed.

(** ** Stage 1 on a line with a single token *)

Lemma replace_head (old new rest : text) :
  old <> [] -> PyStr.contains old rest = false ->
  PyStr.replace old new (old ++ rest) = new ++ rest.
Proof.
  intros Hne H.
  assert (Er : forall x, PyStr.replace old new x
                         = PyStr.replace_scan old new 0 x)
    by (destruct old; [congruence|reflexivity]).
  rewrite Er, replace_scan_hit by exact Hne.
  rewrite <- Er, replace_absent by exact H. reflexivity.
Qed.

Lemma replace_ids_app (before after : list (text * text)) (line : text) :
  replace_ids (before ++ after) line
  = replace_ids after (replace_ids before line).
Proof. unfold replace_ids, items. apply fold_left_app. Qed.

(** X6: a line that begins with the token of one VM, holds that token
    nowhere else, holds the token of no VM that the mapping has before
    it and, once the name is in place, the token of no VM that the
    mapping has after it, comes out of the passes with the name in the
    place of the token and the rest as it was. *)
Theorem lone_token_substituted :
  forall (before after : list (text * text)) (vm_id vm_name rest : text),
    (forall k v, In (k, v) before ->
                 PyStr.contains (str "vm." ++ k) (str "vm." ++ vm_id ++ rest)
                 = false) ->
    PyStr.contains (str "vm." ++ vm_id) rest = false ->
    (forall k v, In (k, v) after ->
                 PyStr.contains (str "vm." ++ k) (vm_name ++ rest) = false) ->
    replace_ids (before ++ (vm_id, vm_name) :: after)
                (str "vm." ++ vm_id ++ rest)
    = vm_name ++ rest.
Proof.
  intros before after vm_id vm_name rest Hb Hr Ha.
  rewrite replace_ids_app.
  rewrite (replace_ids_absent before) by exact Hb.
  change ((vm_id, vm_name) :: after) with ([(vm_id, vm_name)] ++ after).
  rewrite replace_ids_app.
  assert (E : replace_ids [(vm_id, vm_name)] (str "vm." ++ vm_id ++ rest)
              = vm_name ++ rest).
  { unfold replace_ids, items. cbn [fold_left fst snd].
    rewrite (app_assoc (str "vm.") vm_id rest).
    apply replace_head; [apply token_not_empty|exact Hr]. }
  rewrite E. now apply replace_ids_absent.
Qed.

Lemma lone_token_substituted_witness :
  (forall k v, In (k, v) [(str "100", str "web01")] ->
               PyStr.contains (str "vm." ++ k)
                              (str "vm." ++ str "200" ++ str " 4096 1024 200 40")
               = false)
  /\ PyStr.contains (str "vm." ++ str "200") (str " 4096 1024 200 40") = false
  /\ (forall k v, In (k, v) [(str "300", str "mail")] ->
                  PyStr.contains (str "vm." ++ k)
                                 (str "db01" ++ str " 4096 1024 200 40")
                  = false)
  /\ replace_ids ([(str "100", str "web01")]
                    ++ (str "200", str "db01") :: [(str "300", str "mail")])
                 (str "vm." ++ str "200" ++ str " 4096 1024 200 40")
     = str "db01" ++ str " 4096 1024 200 40".
Proof.
  assert (Hb : forall k v, In (k, v) [(str "100", str "web01")] ->
               PyStr.contains (str "vm." ++ k)
                              (str "vm." ++ str "200" ++ str " 4096 1024 200 40")
               = false).
  { intros k v [E|[]]. injection E as <- _. reflexivity. }
  assert (Ha : forall k v, In (k, v) [(str "300", str "mail")] ->
               PyStr.contains (str "vm." ++ k)
                              (str "db01" ++ str " 4096 1024 200 40")
               = false).
  { intros k v [E|[]]. injection E as <- _. reflexivity. }
  split; [exact Hb|]. split; [reflexivity|]. split; [exact Ha|].
  apply (@lone_token_substituted [(str "100", str "web01")]
           [(str "300", str "mail")] (str "200") (str "db01")
           (str " 4096 1024 200 40") Hb eq_refl Ha).
Defined.

(** ** Stage 2 and surrounding whitespace *)

Lemma qualifies_strip (line : text) :
  qualifies (PyStr.strip line) = qualifies line.
Proof. unfold qualifies. now rewrite strip_idempotent. Qed.

Lemma filter_map_swap {A B} (p : B -> bool) (f : A -> B) (xs : list A) :
  filter p (map f xs) = map f (filter (fun x => p (f x)) xs).
Proof.
  induction xs as [|x xs IH]; simpl; [reflexivity|].
  rewrite IH. now destruct (p (f x)).
Qed.

Lemma filter_twice {A} (p : A -> bool) (xs : list A) :
  filter p (filter p xs) = filter p xs.
Proof.
  induction xs as [|x xs IH]; simpl; [reflexivity|].
  destruct (p x) eqn:E; simpl; [rewrite E|]; now rewrite IH.
Qed.

Lemma filter_trimmed (lines : list text) :
  Forall (fun line => PyStr.strip line = line) lines ->
  filter_relevant_lines lines = filter qualifies lines.
Proof.
  intros H. rewrite filter_relevant_lines_filter.
  rewrite <- (map_id (filter qualifies lines)) at 2.
  apply map_ext_in. intros line Hin. apply filter_In in Hin as [Hin _].
  rewrite Forall_forall in H. now apply H.
Qed.

(** X7: filtering again changes nothing, and on the output of stage 1
    the filter only selects: every line it keeps is a line of stage 1,
    character for character. *)
Theorem filter_stable :
  forall (memstats_output : list text) (vm_mapping : dict),
    filter_relevant_lines (filter_relevant_lines memstats_output)
    = filter_relevant_lines memstats_output
    /\ filter_relevant_lines (replace_output memstats_output vm_mapping)
       = filter qualifies (replace_output memstats_output vm_mapping).
Proof.
  intros out m. split.
  - rewrite (filter_relevant_lines_filter out).
    apply eq_trans with
      (filter qualifies (map PyStr.strip (filter qualifies out))).
    + apply filter_trimmed. apply Forall_forall. intros line Hin.
      apply in_map_iff in Hin as (raw & <- & _). apply strip_idempotent.
    + rewrite filter_map_swap.
      rewrite (filter_ext _ qualifies qualifies_strip).
      now rewrite filter_twice.
  - apply filter_trimmed. rewrite replace_output_map.
    apply Forall_forall. intros line Hin.
    apply in_map_iff in Hin as (raw & <- & _). apply strip_idempotent.
Qed.

(** X8: whitespace before and after a line plays no part in stage 2:
    the line is kept or dropped as without it, and what is kept is the
    same text. *)
Theorem filter_ignores_margins :
  forall (w1 line w2 : text),
    Forall (fun c => PyStr.isspace c = true) w1 ->
    Forall (fun c => PyStr.isspace c = true) w2 ->
    qualifies (w1 ++ line ++ w2) = qualifies line
    /\ filter_relevant_lines [w1 ++ line ++ w2] = filter_relevant_lines [line].
Proof.
  intros w1 line w2 H1 H2.
  assert (E : PyStr.strip (w1 ++ line ++ w2) = PyStr.strip line)
    by now apply strip_blank.
  assert (Q : qualifies (w1 ++ line ++ w2) = qualifies line)
    by (unfold qualifies; now rewrite E).
  split; [exact Q|].
  rewrite !filter_relevant_lines_filter. simpl. rewrite Q.
  destruct (qualifies line); simpl; [now rewrite E|reflexivity].
Qed.

Lemma filter_ignores_margins_witness :
  Forall (fun c => PyStr.isspace c = true) (str "  ")
  /\ Forall (fun c => PyStr.isspace c = true) [" "%char; newline]
  /\ qualifies (str "  " ++ str "web01 1 2 3 4" ++ [" "%char; newline])
     = qualifies (str "web01 1 2 3 4")
  /\ filter_relevant_lines
       [str "  " ++ str "web01 1 2 3 4" ++ [" "%char; newline]]
     = filter_relevant_lines [str "web01 1 2 3 4"].
Proof.
  assert (H1 : Forall (fun c => PyStr.isspace c = true) (str "  "))
    by (repeat constructor).
  assert (H2 : Forall (fun c => PyStr.isspace c = true) [" "%char; newline])
    by (repeat constructor).
  split; [exact H1|]. split; [exact H2|].
  apply (@filter_ignores_margins (str "  ") (str "web01 1 2 3 4")
           [" "%char; newline] H1 H2).
Defined.

(** ** Tokens of an untrimmed line *)








(** ** The paths of a session *)

Lemma render_filtered_returns (vm_mapping : dict) (memstats_output : list text) :
  vm_mapping <> [] ->
  result (render vm_mapping (filter_relevant_lines memstats_output))
  = Returned tt.
Proof.
  intros Hne.
  destruct (render_heading (filter_relevant_lines memstats_output) Hne)
    as (heading & _ & Er).
  set (w := list_max (map (@length ascii) (values vm_mapping))) in *.
  destruct (print_rows w (lines := filter_relevant_lines memstats_output))
    as (rows & Erows & _).
  { apply Forall_forall. intros line Hin.
    rewrite (filtered_line_tokens _ _ Hin). lia. }
  rewrite Er, Erows. reflexivity.
Qed.

Lemma session_listing_fails client e :
  exec_command client esxcli_command = ExecFails e ->
  session client
  = ([Print (str "Retrieving VM names and IDs..."); Exec esxcli_command],
     Raised e).
Proof.
  intros E. unfold session, get_vm_mapping.
  rewrite (execute_command_fails _ _ E). reflexivity.
Qed.

Lemma session_stats_fail client output stderr_lines e :
  exec_command client esxcli_command = Reply output stderr_lines ->
  parse_vm_mapping output <> [] ->
  exec_command client memstats_command = ExecFails e ->
  session client
  = ([Print (str "Retrieving VM names and IDs..."); Exec esxcli_command]
       ++ warning stderr_lines
       ++ [Print (str "Retrieving memory stats for VMs backed by NVMe...");
           Exec memstats_command],
     Raised e).
Proof.
  intros E1 Hne E2. unfold session.
  rewrite (get_vm_mapping_reply _ E1).
  destruct (parse_vm_mapping output) as [|item m]; [congruence|].
  unfold retrieve_memory_stats. rewrite (execute_command_fails _ _ E2).
  reflexivity.
Qed.

Lemma session_renders client output stderr_lines stats stats_stderr :
  exec_command client esxcli_command = Reply output stderr_lines ->
  parse_vm_mapping output <> [] ->
  exec_command client memstats_command = Reply stats stats_stderr ->
  session client
  = ([Print (str "Retrieving VM names and IDs..."); Exec esxcli_command]
       ++ warning stderr_lines
       ++ [Print (str "Retrieving memory stats for VMs backed by NVMe...");
           Exec memstats_command]
       ++ warning stats_stderr
       ++ trace (render (parse_vm_mapping output)
                   (filter_relevant_lines
                      (replace_output stats (parse_vm_mapping output)))),
     Returned tt).
Proof.
  intros E1 Hne E2. unfold session.
  rewrite (get_vm_mapping_reply _ E1).
  pose proof (@render_filtered_returns (parse_vm_mapping output)
                (replace_output stats (parse_vm_mapping output)) Hne) as Hr.
  destruct (parse_vm_mapping output) as [|item m] eqn:Em; [congruence|].
  rewrite (bind_returned _ _ (a := item :: m)) by reflexivity.
  cbv beta iota.
  rewrite (bind_returned _ _ (a := replace_output stats (item :: m)))
    by (now rewrite (retrieve_memory_stats_reply _ _ E2)).
  rewrite (retrieve_memory_stats_reply _ _ E2), Hr.
  cbn [trace result fst snd]. f_equal.
Qed.

Lemma session_idle client output stderr_lines :
  exec_command client esxcli_command = Reply output stderr_lines ->
  parse_vm_mapping output = [] ->
  session client
  = ([Print (str "Retrieving VM names and IDs..."); Exec esxcli_command]
       ++ warning stderr_lines
       ++ [Print (str "No VMs are currently running on the ESXi host.")],
     Returned tt).
Proof.
  intros E Hp. unfold session.
  rewrite (get_vm_mapping_reply _ E), Hp. reflexivity.
Qed.

(** X10: when both commands answer, whatever they answer, the [try]
    block ends normally: neither [max] nor the row format raises. *)
Theorem session_returns_when_host_answers :
  forall (client : ssh_client) (output stderr_lines stats stats_stderr : list text),
    exec_command client esxcli_command = Reply output stderr_lines ->
    exec_command client memstats_command = Reply stats stats_stderr ->
    result (session client) = Returned tt.
Proof.
  intros client output err stats err2 E1 E2.
  destruct (parse_vm_mapping output) as [|item m] eqn:Em.
  - now rewrite (session_idle _ E1 Em).
  - assert (Hne : parse_vm_mapping output <> []) by congruence.
    now rewrite (session_renders _ E1 Hne E2).
Qed.

Lemma session_returns_when_host_answers_witness :
  exec_command busy_client esxcli_command = Reply busy_listing []
  /\ exec_command busy_client memstats_command = Reply busy_stats []
  /\ result (session busy_client) = Returned tt.
Proof.
  split; [reflexivity|]. split; [reflexivity|].
  apply (@session_returns_when_host_answers busy_client busy_listing []
           busy_stats []); reflexivity.
Defined.

(** X11: with a mapping that is not empty and both commands answering,
    the [try] block prints the two progress lines, sends the two
    commands, and prints the table of the filtered, substituted
    statistics; the error stream of a command adds one warning line
    behind the command and changes nothing else. *)
Theorem session_trace :
  forall (client : ssh_client) (output stderr_lines stats stats_stderr : list text),
    exec_command client esxcli_command = Reply output stderr_lines ->
    parse_vm_mapping output <> [] ->
    exec_command client memstats_command = Reply stats stats_stderr ->
    session client
    = ([Print (str "Retrieving VM names and IDs..."); Exec esxcli_command]
         ++ warning stderr_lines
         ++ [Print (str "Retrieving memory stats for VMs backed by NVMe...");
             Exec memstats_command]
         ++ warning stats_stderr
         ++ trace (render (parse_vm_mapping output)
                     (filter_relevant_lines
                        (replace_output stats (parse_vm_mapping output)))),
       Returned tt).
Proof. intros. now apply session_renders. Qed.

Lemma session_trace_witness :
  exec_command busy_client esxcli_command = Reply busy_listing []
  /\ parse_vm_mapping busy_listing <> []
  /\ exec_command busy_client memstats_command = Reply busy_stats []
  /\ session busy_client
     = ([Print (str "Retrieving VM names and IDs..."); Exec esxcli_command]
          ++ warning []
          ++ [Print (str "Retrieving memory stats for VMs backed by NVMe...");
              Exec memstats_command]
          ++ warning []
          ++ trace (render (parse_vm_mapping busy_listing)
                      (filter_relevant_lines
                         (replace_output busy_stats
                            (parse_vm_mapping busy_listing)))),
        Returned tt).
Proof.
  split; [reflexivity|]. split; [vm_compute; discriminate|].
  split; [reflexivity|].
  apply (@session_trace busy_client busy_listing [] busy_stats []).
  - reflexivity.
  - vm_compute. discriminate.
  - reflexivity.
Defined.

(** X12: a failing listing command ends the [try] block at once with
    the command's exception: nothing more is sent or printed. *)
Theorem listing_failure_propagates :
  forall (client : ssh_client) (e : exn),
    exec_command client esxcli_command = ExecFails e ->
    session client
    = ([Print (str "Retrieving VM names and IDs..."); Exec esxcli_command],
       Raised e).
Proof. intros client e. apply session_listing_fails. Qed.

Lemma listing_failure_propagates_witness :
  exec_command (answering (ExecFails (SSHException (str "closed")))
                          (Reply [] []))
               esxcli_command
  = ExecFails (SSHException (str "closed"))
  /\ session (answering (ExecFails (SSHException (str "closed")))
                        (Reply [] []))
     = ([Print (str "Retrieving VM names and IDs..."); Exec esxcli_command],
        Raised (SSHException (str "closed"))).
Proof.
  split; [reflexivity|].
  apply (@listing_failure_propagates
           (answering (ExecFails (SSHException (str "closed"))) (Reply [] []))
           (SSHException (str "closed"))).
  reflexivity.
Defined.

(** X16: a failing statistics command ends the [try] block at once with
    the command's exception: no line of the table is printed, not even
    its banner. *)
Theorem stats_failure_propagates :
  forall (client : ssh_client) (output stderr_lines : list text) (e : exn),
    exec_command client esxcli_command = Reply output stderr_lines ->
    parse_vm_mapping output <> [] ->
    exec_command client memstats_command = ExecFails e ->
    session client
    = ([Print (str "Retrieving VM names and IDs..."); Exec esxcli_command]
         ++ warning stderr_lines
         ++ [Print (str "Retrieving memory stats for VMs backed by NVMe...");
             Exec memstats_command],
       Raised e).
Proof. intros client output err e. apply session_stats_fail. Qed.

Lemma stats_failure_propagates_witness :
  exec_command (answering (Reply busy_listing [])
                          (ExecFails (SSHException (str "timeout"))))
               esxcli_command
  = Reply busy_listing []
  /\ parse_vm_mapping busy_listing <> []
  /\ exec_command (answering (Reply busy_listing [])
                             (ExecFails (SSHException (str "timeout"))))
                  memstats_command
     = ExecFails (SSHException (str "timeout"))
  /\ session (answering (Reply busy_listing [])
                        (ExecFails (SSHException (str "timeout"))))
     = ([Print (str "Retrieving VM names and IDs..."); Exec esxcli_command]
          ++ warning []
          ++ [Print (str "Retrieving memory stats for VMs backed by NVMe...");
              Exec memstats_command],
        Raised (SSHException (str "timeout"))).
Proof.
  split; [reflexivity|]. split; [vm_compute; discriminate|].
  split; [reflexivity|].
  apply (@stats_failure_propagates
           (answering (Reply busy_listing [])
                      (ExecFails (SSHException (str "timeout"))))
           busy_listing [] (SSHException (str "timeout"))).
  - reflexivity.
  - vm_compute. discriminate.
  - reflexivity.
Defined.

Lemma commands_sent_app (t1 t2 : list event) :
  commands_sent (t1 ++ t2) = commands_sent t1 ++ commands_sent t2.
Proof. apply flat_map_app. Qed.

Lemma commands_sent_warning (stderr_lines : list text) :
  commands_sent (warning stderr_lines) = [].
Proof. now destruct stderr_lines. Qed.

Lemma commands_sent_bind {A B} (m : run A) (f : A -> run B) :
  commands_sent (trace m) = [] ->
  (forall a, commands_sent (trace (f a)) = []) ->
  commands_sent (trace (bind m f)) = [].
Proof.
  intros Hm Hf. destruct m as [t [a|e]]; simpl in *; [|exact Hm].
  specialize (Hf a). destruct (f a) as [t2 r]. simpl in *.
  now rewrite commands_sent_app, Hm, Hf.
Qed.

Lemma commands_sent_print_row w columns :
  commands_sent (trace (print_row w columns)) = [].
Proof.
  unfold print_row. apply commands_sent_bind; [|reflexivity].
  unfold header_format.
  now destruct columns as [|c0 [|c1 [|c2 [|c3 [|c4 rest]]]]].
Qed.

Lemma commands_sent_render vm_mapping relevant_lines :
  commands_sent (trace (render vm_mapping relevant_lines)) = [].
Proof.
  unfold render. apply commands_sent_bind.
  - unfold py_max. now destruct (map _ _).
  - intros w.
    apply commands_sent_bind; [reflexivity|intros _].
    apply commands_sent_bind; [apply commands_sent_print_row|intros _].
    apply commands_sent_bind; [reflexivity|intros _].
    induction relevant_lines as [|line lines IH]; simpl; [reflexivity|].
    apply commands_sent_bind; [apply commands_sent_print_row|].
    intros _. exact IH.
Qed.

(** X13: whatever the host answers, the [try] block sends the listing
    command first and after it at most the statistics command; no other
    command is ever sent. *)
Theorem only_two_commands :
  forall client : ssh_client,
    commands_sent (trace (session client)) = [esxcli_command]
    \/ commands_sent (trace (session client))
       = [esxcli_command; memstats_command].
Proof.
  intros client.
  destruct (exec_command client esxcli_command) as [output err|e] eqn:E1.
  - destruct (parse_vm_mapping output) as [|item m] eqn:Em.
    + left. rewrite (session_idle _ E1 Em). cbn [trace fst].
      rewrite !commands_sent_app, commands_sent_warning. reflexivity.
    + right.
      assert (Hne : parse_vm_mapping output <> []) by congruence.
      destruct (exec_command client memstats_command) as [stats err2|e] eqn:E2.
      * rewrite (session_renders _ E1 Hne E2). cbn [trace fst].
        rewrite !commands_sent_app, !commands_sent_warning.
        rewrite commands_sent_render. reflexivity.
      * rewrite (session_stats_fail _ E1 Hne E2). cbn [trace fst].
        rewrite !commands_sent_app, commands_sent_warning. reflexivity.
  - left. now rewrite (session_listing_fails _ E1).
Qed.

Lemma commands_sent_idle client output stderr_lines :
  exec_command client esxcli_command = Reply output stderr_lines ->
  parse_vm_mapping output = [] ->
  commands_sent (trace (session client)) = [esxcli_command].
Proof.
  intros E Hp. rewrite (session_idle _ E Hp). cbn [trace fst].
  rewrite !commands_sent_app, commands_sent_warning. reflexivity.
Qed.

Lemma commands_sent_busy client output stderr_lines :
  exec_command client esxcli_command = Reply output stderr_lines ->
  parse_vm_mapping output <> [] ->
  commands_sent (trace (session client)) = [esxcli_command; memstats_command].
Proof.
  intros E1 Hne.
  destruct (exec_command client memstats_command) as [stats err2|e] eqn:E2.
  - rewrite (session_renders _ E1 Hne E2). cbn [trace fst].
    rewrite !commands_sent_app, !commands_sent_warning.
    rewrite commands_sent_render. reflexivity.
  - rewrite (session_stats_fail _ E1 Hne E2). cbn [trace fst].
    rewrite !commands_sent_app, commands_sent_warning. reflexivity.
Qed.

(** X2: once the listing command has answered, the mapping is empty
    exactly when no line below the header has four commas, and this is
    the only case in which the [try] block takes the branch that
    reports that no VM is running and sends no statistics command. *)
Theorem no_vm_branch_iff :
  forall (client : ssh_client) (output stderr_lines : list text),
    exec_command client esxcli_command = Reply output stderr_lines ->
    (parse_vm_mapping output = []
     <-> Forall (fun line => commas line < 4) (tl output))
    /\ (session client
        = ([Print (str "Retrieving VM names and IDs..."); Exec esxcli_command]
             ++ warning stderr_lines
             ++ [Print (str "No VMs are currently running on the ESXi host.")],
           Returned tt)
        <-> Forall (fun line => commas line < 4) (tl output))
    /\ (commands_sent (trace (session client)) = [esxcli_command]
        <-> Forall (fun line => commas line < 4) (tl output)).
Proof.
  intros client output err E.
  pose proof (mapping_empty_iff output) as Hm.
  assert (Hc : commands_sent (trace (session client)) = [esxcli_command]
               <-> parse_vm_mapping output = []).
  { split.
    - intros H. destruct (parse_vm_mapping output) as [|item m] eqn:Em;
        [reflexivity|exfalso].
      assert (Hne : parse_vm_mapping output <> [])
        by (rewrite Em; discriminate).
      rewrite (@commands_sent_busy client output err E Hne) in H.
      discriminate.
    - intros Hp. exact (@commands_sent_idle client output err E Hp). }
  split; [exact Hm|]. split.
  - rewrite <- Hm. split.
    + intros H. apply Hc. rewrite H. cbn [trace fst].
      rewrite !commands_sent_app, commands_sent_warning. reflexivity.
    + intros Hp. exact (@session_idle client output err E Hp).
  - rewrite <- Hm. exact Hc.
Qed.

Lemma no_vm_branch_iff_witness :
  exec_command idle_client esxcli_command = Reply [listing_header] []
  /\ (parse_vm_mapping [listing_header] = []
      <-> Forall (fun line => commas line < 4) (tl [listing_header]))
  /\ (session idle_client
      = ([Print (str "Retrieving VM names and IDs..."); Exec esxcli_command]
           ++ warning []
           ++ [Print (str "No VMs are currently running on the ESXi host.")],
         Returned tt)
      <-> Forall (fun line => commas line < 4) (tl [listing_header]))
  /\ (commands_sent (trace (session idle_client)) = [esxcli_command]
      <-> Forall (fun line => commas line < 4) (tl [listing_header])).
Proof.
  split; [reflexivity|].
  apply (@no_vm_branch_iff idle_client [listing_header] []).
  reflexivity.
Defined.

(** ** Runs without a session *)

Lemma read_credentials_silent (w : world) :
  trace (read_credentials_from_xml w) = [].
Proof.
  unfold read_credentials_from_xml. destruct (xml_file w) as [| |root];
    [reflexivity|reflexivity|].
  assert (F : forall tag, trace (text_strip (find root tag)) = []).
  { intros tag. now destruct (find root tag) as [[body|]|]. }
  assert (B : forall A B (m : run A) (f : A -> run B),
             trace m = [] -> (forall a, trace (f a) = []) ->
             trace (bind m f) = []).
  { intros A B [t [a|e]] f Hm Hf; simpl in *; [|exact Hm].
    specialize (Hf a). destruct (f a). simpl in *. now subst. }
  repeat (apply B; [apply F|intros ?]). reflexivity.
Qed.

Lemma text_strip_raises (element : option (option text)) (e : exn) :
  result (text_strip element) = Raised e <->
  (element = None \/ element = Some None) /\ e = AttributeError.
Proof.
  destruct element as [[body|]|]; simpl; split.
  - discriminate.
  - intros [[H|H] _]; discriminate.
  - intros H. injection H as <-. auto.
  - intros [_ ->]. reflexivity.
  - intros H. injection H as <-. auto.
  - intros [_ ->]. reflexivity.
Qed.

(** Reading the credentials raises exactly when the file is missing,
    is not well-formed, or lacks one of the three elements or its
    text. *)
Lemma read_credentials_raises (w : world) (e : exn) :
  result (read_credentials_from_xml w) = Raised e <->
  (xml_file w = NoSuchFile /\ e = FileNotFoundError)
  \/ (xml_file w = NotWellFormed /\ e = ParseError)
  \/ (exists root tag,
        xml_file w = Tree root
        /\ In tag [str "host"; str "username"; str "password"]
        /\ (find root tag = None \/ find root tag = Some None)
        /\ e = AttributeError).
Proof.
  unfold read_credentials_from_xml.
  destruct (xml_file w) as [| |root].
  - simpl. split.
    + intros H. injection H as <-. auto.
    + intros [[_ ->]|[[H _]|(r & t & H & _)]]; [reflexivity|discriminate..].
  - simpl. split.
    + intros H. injection H as <-. auto.
    + intros [[H _]|[[_ ->]|(r & t & H & _)]]; [discriminate|reflexivity|discriminate].
  - split.
    + intros H. right. right. exists root.
      destruct (find root (str "host")) as [[h|]|] eqn:Eh;
        [|exists (str "host"); injection H as <-; simpl; auto 6..].
      destruct (find root (str "username")) as [[u|]|] eqn:Eu;
        [|exists (str "username"); injection H as <-; simpl; auto 6..].
      destruct (find root (str "password")) as [[p|]|] eqn:Ep;
        [discriminate|exists (str "password"); injection H as <-; simpl; auto 7..].
    + intros [[H _]|[[H _]|(r & tag & Er & Hin & Hf & ->)]];
        [discriminate|discriminate|]. injection Er as <-.
      destruct (find root (str "host")) as [[h|]|] eqn:Eh;
        [|reflexivity..].
      destruct (find root (str "username")) as [[u|]|] eqn:Eu;
        [|reflexivity..].
      destruct (find root (str "password")) as [[p|]|] eqn:Ep;
        [|reflexivity..].
      exfalso. destruct Hin as [<-|[<-|[<-|[]]]]; destruct Hf; congruence.
Qed.

(** X14: when the credentials cannot be read, because the file is
    missing or not well-formed, or because one of the elements [host],
    [username] and [password] is absent or has no text, the run ends
    with that exception before anything is printed, sent or opened. *)
Theorem no_credentials_no_connection :
  forall (w : world) (e : exn),
    (xml_file w = NoSuchFile /\ e = FileNotFoundError)
    \/ (xml_file w = NotWellFormed /\ e = ParseError)
    \/ (exists root tag,
          xml_file w = Tree root
          /\ In tag [str "host"; str "username"; str "password"]
          /\ (find root tag = None \/ find root tag = Some None)
          /\ e = AttributeError) ->
    main w = ([], Raised e).
Proof.
  intros w e H. apply read_credentials_raises in H. unfold main.
  rewrite (bind_raised _ _ H), read_credentials_silent. reflexivity.
Qed.

Lemma no_credentials_no_connection_witness :
  ((xml_file {| xml_file := Tree [(str "host", None);
                                  (str "username", Some (str "root"));
                                  (str "password", Some (str "secret"))];
                connect := fun _ _ _ => Connected busy_client |}
    = NoSuchFile /\ AttributeError = FileNotFoundError)
   \/ (xml_file {| xml_file := Tree [(str "host", None);
                                     (str "username", Some (str "root"));
                                     (str "password", Some (str "secret"))];
                   connect := fun _ _ _ => Connected busy_client |}
       = NotWellFormed /\ AttributeError = ParseError)
   \/ (exists root tag,
         xml_file {| xml_file := Tree [(str "host", None);
                                       (str "username", Some (str "root"));
                                       (str "password", Some (str "secret"))];
                     connect := fun _ _ _ => Connected busy_client |}
         = Tree root
         /\ In tag [str "host"; str "username"; str "password"]
         /\ (find root tag = None \/ find root tag = Some None)
         /\ AttributeError = AttributeError))
  /\ main {| xml_file := Tree [(str "host", None);
                               (str "username", Some (str "root"));
                               (str "password", Some (str "secret"))];
             connect := fun _ _ _ => Connected busy_client |}
     = ([], Raised AttributeError).
Proof.
  assert (H : (xml_file {| xml_file := Tree [(str "host", None);
                                  (str "username", Some (str "root"));
                                  (str "password", Some (str "secret"))];
                connect := fun _ _ _ => Connected busy_client |}
    = NoSuchFile /\ AttributeError = FileNotFoundError)
   \/ (xml_file {| xml_file := Tree [(str "host", None);
                                     (str "username", Some (str "root"));
                                     (str "password", Some (str "secret"))];
                   connect := fun _ _ _ => Connected busy_client |}
       = NotWellFormed /\ AttributeError = ParseError)
   \/ (exists root tag,
         xml_file {| xml_file := Tree [(str "host", None);
                                       (str "username", Some (str "root"));
                                       (str "password", Some (str "secret"))];
                     connect := fun _ _ _ => Connected busy_client |}
         = Tree root
         /\ In tag [str "host"; str "username"; str "password"]
         /\ (find root tag = None \/ find root tag = Some None)
         /\ AttributeError = AttributeError)).
  { right. right. eexists. exists (str "host"). split; [reflexivity|].
    split; [now left|]. split; [now right|reflexivity]. }
  split; [exact H|].
  apply (@no_credentials_no_connection _ AttributeError H).
Defined.

(** X15: when the connection fails, the run reports the failure and
    ends normally without sending a command or closing a session. *)
Theorem connection_failure_exits :
  forall (w : world) (hostname username password e : text),
    read_credentials_from_xml w = ret (hostname, username, password) ->
    connect w hostname username password = ConnectFails e ->
    main w
    = ([Print (str "Connecting to " ++ hostname ++ str "...");
        Print (str "Failed to connect: " ++ e);
        Print (str "Exiting due to connection failure.")],
       Returned tt).
Proof.
  intros w h u p e Ec En. unfold main.
  rewrite Ec, bind_ret_l. cbv beta iota.
  unfold connect_to_esxi. rewrite En. reflexivity.
Qed.

Lemma connection_failure_exits_witness :
  read_credentials_from_xml
    {| xml_file := Tree credentials;
       connect := fun _ _ _ => ConnectFails (str "timed out") |}
  = ret (str "esxi01", str "root", str "secret")
  /\ connect {| xml_file := Tree credentials;
                connect := fun _ _ _ => ConnectFails (str "timed out") |}
             (str "esxi01") (str "root") (str "secret")
     = ConnectFails (str "timed out")
  /\ main {| xml_file := Tree credentials;
             connect := fun _ _ _ => ConnectFails (str "timed out") |}
     = ([Print (str "Connecting to " ++ str "esxi01" ++ str "...");
         Print (str "Failed to connect: " ++ str "timed out");
         Print (str "Exiting due to connection failure.")],
        Returned tt).
Proof.
  split; [reflexivity|]. split; [reflexivity|].
  apply (@connection_failure_exits
           {| xml_file := Tree credentials;
              connect := fun _ _ _ => ConnectFails (str "timed out") |}
           (str "esxi01") (str "root") (str "secret") (str "timed out"));
    reflexivity.
Defined.

(** ** Columns *)

Lemma ljust_fits (n : nat) (s : text) :
  length s <= n -> length (PyStr.ljust n s) = n.
Proof.
  intros H. unfold PyStr.ljust. rewrite length_app, repeat_length. lia.
Qed.

Lemma ljust_starts (n : nat) (s rest : text) :
  PyStr.startswith s (PyStr.ljust n s ++ rest) = true.
Proof.
  apply startswith_app. unfold PyStr.ljust.
  rewrite <- app_assoc. eauto.
Qed.

Lemma skipn_column (n k : nat) (s rest : text) :
  length s <= n ->
  skipn (n + k) (PyStr.ljust n s ++ rest) = skipn k rest.
Proof.
  intros H. rewrite skipn_app, (@ljust_fits n s H).
  rewrite skipn_all2 by (rewrite (@ljust_fits n s H); lia).
  simpl. f_equal. lia.
Qed.

(** X17: when the five columns fit their widths ([w], 15, 15, 20, 20),
    the row is [w + 78] characters long and its columns start at the
    offsets 0, [w + 2], [w + 19], [w + 36] and [w + 58], so the rows of
    a table line up. *)
Theorem row_columns_aligned :
  forall (w : nat) (c0 c1 c2 c3 c4 : text),
    length c0 <= w -> length c1 <= 15 -> length c2 <= 15 ->
    length c3 <= 20 -> length c4 <= 20 ->
    exists row,
      header_format w [c0; c1; c2; c3; c4] = ret row
      /\ length row = w + 78
      /\ PyStr.startswith c0 row = true
      /\ PyStr.startswith c1 (skipn (w + 2) row) = true
      /\ PyStr.startswith c2 (skipn (w + 19) row) = true
      /\ PyStr.startswith c3 (skipn (w + 36) row) = true
      /\ PyStr.startswith c4 (skipn (w + 58) row) = true.
Proof.
  intros w c0 c1 c2 c3 c4 H0 H1 H2 H3 H4.
  eexists. split; [reflexivity|].
  assert (S1 : forall k rest,
             skipn (w + S (S k))
                   (PyStr.ljust w c0 ++ str "  " ++ rest) = skipn k rest).
  { intros k rest. now rewrite skipn_column by exact H0. }
  assert (S2 : forall n s k rest,
             length s <= n ->
             skipn (n + S (S k)) (PyStr.ljust n s ++ str "  " ++ rest)
             = skipn k rest).
  { intros n s k rest Hs. now rewrite skipn_column by exact Hs. }
  split; [|split; [|split; [|split; [|split]]]].
  - rewrite !length_app, !ljust_fits by assumption. simpl. lia.
  - apply ljust_starts.
  - rewrite (S1 0). simpl. apply ljust_starts.
  - change (w + 19) with (w + S (S (15 + 2))). rewrite S1.
    rewrite (S2 15 c1 0) by exact H1. simpl. apply ljust_starts.
  - change (w + 36) with (w + S (S (15 + S (S (15 + 2))))). rewrite S1.
    rewrite (S2 15 c1) by exact H1. rewrite (S2 15 c2 0) by exact H2.
    simpl. apply ljust_starts.
  - change (w + 58) with (w + S (S (15 + S (S (15 + S (S (20 + 2))))))).
    rewrite S1. rewrite (S2 15 c1) by exact H1.
    rewrite (S2 15 c2) by exact H2. rewrite (S2 20 c3 0) by exact H3.
    simpl. rewrite <- (app_nil_r (PyStr.ljust 20 c4)). apply ljust_starts.
Qed.

Lemma row_columns_aligned_witness :
  length (str "web01") <= 5 /\ length (str "2048") <= 15
  /\ length (str "512") <= 15 /\ length (str "100") <= 20
  /\ length (str "20") <= 20
  /\ exists row,
      header_format 5 [str "web01"; str "2048"; str "512"; str "100"; str "20"]
      = ret row
      /\ length row = 5 + 78
      /\ PyStr.startswith (str "web01") row = true
      /\ PyStr.startswith (str "2048") (skipn (5 + 2) row) = true
      /\ PyStr.startswith (str "512") (skipn (5 + 19) row) = true
      /\ PyStr.startswith (str "100") (skipn (5 + 36) row) = true
      /\ PyStr.startswith (str "20") (skipn (5 + 58) row) = true.
Proof.
  repeat (split; [simpl; lia|]).
  apply (@row_columns_aligned 5 (str "web01") (str "2048") (str "512")
           (str "100") (str "20")); simpl; lia.
Defined.

(** ** From a statistics line to a table line *)






